(** * gortmp: the client session (client.go) and its router (client_route.go)

    A shallow embedding of the two Go files and the properties of the
    session that follow from them: transaction ids, the pending-response
    table, the byte counters, the life cycle (Reset, Disconnect, Connect)
    and the dispatch of inbound messages.

    Conventions.
    - A [uint32] is a [Z] kept in [0, 2^32); every place where Go wraps is
      written with [uint32].
    - A Go pointer that may be nil is an [option]; [None] is nil.
    - A Go map is a [gmap]; reading a missing key gives the zero value,
      which [map_index] writes out.  A nil map reads like the empty map,
      and the files only ever write to maps that were made before, so nil
      and empty maps are not told apart.
    - Channels live in a store of the runtime, addressed by number, since
      Reset closes one channel object and puts a fresh one in its place.
    - A panic of the Go runtime is the result [None] of the monad [M]. *)

From Stdlib Require Import ZArith List String Lia Strings.Byte.
From stdpp Require Import base option list gmap strings.

Local Open Scope Z_scope.

(** ** Machine integers *)

Definition uint32_modulus : Z := 2 ^ 32.

(** The conversion [uint32(x)] and the result of every uint32 operation. *)
Definition uint32 (z : Z) : Z := z mod uint32_modulus.

Definition in_uint32 (z : Z) : Prop := 0 <= z < uint32_modulus.

(** ** Errors *)

(** [ErrResponseTimeout] is the package variable of client.go; [Error] is
    the package's formatting constructor, with one argument that is either
    a string or an error; [errors_New] stands for the errors of the
    libraries (net, net/url, crypto/tls, amf). *)
Inductive error : Type :=
| ErrResponseTimeout
| errors_New (text : string)
| ErrorS (format : string) (arg : string)
| ErrorE (format : string) (arg : error).

(** ** Messages *)

(** Modelled from the spec: the struct Message is declared outside the two
    files.  The fields are those of the spec's data model; client.go and
    client_route.go read [ChunkStreamId], [Type] and [TransactionId]. *)
Record Message := mkMessage {
  ChunkStreamId : Z;
  Type_ : Z;
  Timestamp : Z;
  StreamId : Z;
  TransactionId : Z;
  Buffer : list byte
}.

(** ** What the package declares outside the two files *)

Record URL := mkURL { Scheme : string; Host : string }.

Class Types := {
  (** the state of a transport behind the interface net.Conn *)
  Conn : Type;
  conn_Read : Conn -> list byte -> Conn * list byte * Z * option error;
  conn_Write : Conn -> list byte -> Conn * Z * option error;
  conn_Close : Conn -> Conn * option error;
  (** net/url, net and crypto/tls *)
  url_Parse : string -> option URL * option error;
  net_DialTimeout : string -> string -> Z -> option Conn * option error;
  tls_Client : Conn -> Conn;
  tls_Handshake : Conn -> Conn * option error;
  (** types of the package and of amf *)
  OutboundChunkStream : Type;
  InboundChunkStream : Type;
  ExternalHandler : Type;
  Decoder : Type;
  Response : Type;
  Result : Type;
  Result_TransactionId : Result -> Z;
  (** [msg.DecodeResult(&c.dec)]: the decoder is passed by pointer *)
  DecodeResult : Message -> Decoder -> Decoder * option Result * option error;
  (** constants *)
  DEFAULT_CHUNK_SIZE : Z;
  DEFAULT_WINDOW_SIZE : Z;
  CHUNK_STREAM_ID_PROTOCOL : Z;
  CHUNK_STREAM_ID_COMMAND : Z
}.

(** ** The runtime: channels, the logger, goroutines *)

Record Chan := mkChan { ch_closed : bool; ch_queue : list Message }.

Inductive LogLevel := LvlTrace | LvlDebug | LvlWarn | LvlError.

Inductive LogArg :=
| ArgZ (z : Z)
| ArgS (s : string)
| ArgMsg (m : option Message)
| ArgErr (e : error).

Record LogEntry := mkLog { lg_level : LogLevel; lg_format : string; lg_args : list LogArg }.

Inductive Goroutine := go_receiveLoop | go_sendLoop | go_routeLoop.

Record Runtime := mkRuntime {
  chans : list Chan;          (* every channel made so far, by address *)
  logged : list LogEntry;     (* the calls of the logger, oldest first *)
  started : list Goroutine    (* the go statements executed, oldest first *)
}.


(** A computation over the runtime; [None] is a panic. *)
Definition M (A : Type) : Type := Runtime -> option (A * Runtime).

Definition ret {A} (a : A) : M A := fun r => Some (a, r).

Definition bind {A B} (m : M A) (k : A -> M B) : M B :=
  fun r => match m r with
           | Some (a, r') => k a r'
           | None => None
           end.

Definition panic {A} : M A := fun _ => None.

Declare Scope go_scope.
Delimit Scope go_scope with go.
Notation "'let*' x ':=' m 'in' k" := (bind m (fun x => k))
  (at level 20, x pattern, m at level 100, k at level 200) : go_scope.
Notation "m ;; k" := (bind m (fun _ => k))
  (at level 100, k at level 200, right associativity) : go_scope.
Local Open Scope go_scope.

Definition log_call (lvl : LogLevel) (fmt : string) (args : list LogArg) : M unit :=
  fun r => Some (tt, mkRuntime (chans r) (logged r ++ [mkLog lvl fmt args]) (started r)).

Definition go (g : Goroutine) : M unit :=
  fun r => Some (tt, mkRuntime (chans r) (logged r) (started r ++ [g])).

(** [make(chan *Message)]: a fresh, open, empty channel. *)
Definition make_chan : M (option nat) :=
  fun r => Some (Some (length (chans r)),
                 mkRuntime (chans r ++ [mkChan false []]) (logged r) (started r)).

(** [close(ch)]: panics on a nil channel and on a closed channel. *)
Definition close (ch : option nat) : M unit :=
  fun r => match ch with
           | None => None
           | Some a =>
             match chans r !! a with
             | None => None
             | Some c =>
               if ch_closed c then None
               else Some (tt, mkRuntime (<[a := mkChan true (ch_queue c)]> (chans r))
                                        (logged r) (started r))
             end
           end.

Inductive Received :=
| RecvMsg (m : Message)     (* msg, open = m, true *)
| RecvClosed                (* msg, open = nil, false *)
| RecvBlocked.              (* nothing to receive yet, or a nil channel *)

(** [<-ch]: the oldest message; on a closed and drained channel the zero
    value and false; otherwise the receiver waits. *)
Definition recv (ch : option nat) : M Received :=
  fun r => match ch with
           | None => Some (RecvBlocked, r)
           | Some a =>
             match chans r !! a with
             | None => Some (RecvBlocked, r)
             | Some c =>
               match ch_queue c with
               | m :: q =>
                 Some (RecvMsg m, mkRuntime (<[a := mkChan (ch_closed c) q]> (chans r))
                                            (logged r) (started r))
               | [] => Some (if ch_closed c then RecvClosed else RecvBlocked, r)
               end
             end
           end.

Section Session.
Context `{Types}.

(** ** The struct Client of client.go, field by field *)

Record Client := mkClient {
  url : string;
  connected : bool;
  conn : option Conn;
  outBytes : Z;
  outMessages : option nat;
  outWindowSize : Z;
  outChunkSize : Z;
  outChunkStreams : gmap Z OutboundChunkStream;
  inBytes : Z;
  inMessages : option nat;
  inNotify : option nat;
  inWindowSize : Z;
  inChunkSize : Z;
  inChunkStreams : gmap Z InboundChunkStream;
  responses : gmap Z (option Response);
  lastTransactionId : Z;
  connectionId : string;
  amfExternalHandlers : gmap string ExternalHandler
}.

(** [m[k]] for a map of pointers: nil when the key is missing. *)
Definition map_index {V} (m : gmap Z (option V)) (k : Z) : option V :=
  default None (m !! k).

Definition set_connected (b : bool) (c : Client) : Client :=
  mkClient (url c) b (conn c) (outBytes c) (outMessages c) (outWindowSize c)
    (outChunkSize c) (outChunkStreams c) (inBytes c) (inMessages c) (inNotify c)
    (inWindowSize c) (inChunkSize c) (inChunkStreams c) (responses c)
    (lastTransactionId c) (connectionId c) (amfExternalHandlers c).

Definition set_conn (k : option Conn) (c : Client) : Client :=
  mkClient (url c) (connected c) k (outBytes c) (outMessages c) (outWindowSize c)
    (outChunkSize c) (outChunkStreams c) (inBytes c) (inMessages c) (inNotify c)
    (inWindowSize c) (inChunkSize c) (inChunkStreams c) (responses c)
    (lastTransactionId c) (connectionId c) (amfExternalHandlers c).

Definition set_outBytes (n : Z) (c : Client) : Client :=
  mkClient (url c) (connected c) (conn c) n (outMessages c) (outWindowSize c)
    (outChunkSize c) (outChunkStreams c) (inBytes c) (inMessages c) (inNotify c)
    (inWindowSize c) (inChunkSize c) (inChunkStreams c) (responses c)
    (lastTransactionId c) (connectionId c) (amfExternalHandlers c).

Definition set_inBytes (n : Z) (c : Client) : Client :=
  mkClient (url c) (connected c) (conn c) (outBytes c) (outMessages c) (outWindowSize c)
    (outChunkSize c) (outChunkStreams c) n (inMessages c) (inNotify c)
    (inWindowSize c) (inChunkSize c) (inChunkStreams c) (responses c)
    (lastTransactionId c) (connectionId c) (amfExternalHandlers c).

Definition set_responses (m : gmap Z (option Response)) (c : Client) : Client :=
  mkClient (url c) (connected c) (conn c) (outBytes c) (outMessages c) (outWindowSize c)
    (outChunkSize c) (outChunkStreams c) (inBytes c) (inMessages c) (inNotify c)
    (inWindowSize c) (inChunkSize c) (inChunkStreams c) m
    (lastTransactionId c) (connectionId c) (amfExternalHandlers c).

Definition set_lastTransactionId (n : Z) (c : Client) : Client :=
  mkClient (url c) (connected c) (conn c) (outBytes c) (outMessages c) (outWindowSize c)
    (outChunkSize c) (outChunkStreams c) (inBytes c) (inMessages c) (inNotify c)
    (inWindowSize c) (inChunkSize c) (inChunkStreams c) (responses c)
    n (connectionId c) (amfExternalHandlers c).

Definition set_connectionId (s : string) (c : Client) : Client :=
  mkClient (url c) (connected c) (conn c) (outBytes c) (outMessages c) (outWindowSize c)
    (outChunkSize c) (outChunkStreams c) (inBytes c) (inMessages c) (inNotify c)
    (inWindowSize c) (inChunkSize c) (inChunkStreams c) (responses c)
    (lastTransactionId c) s (amfExternalHandlers c).

Definition set_amfExternalHandlers (m : gmap string ExternalHandler) (c : Client) : Client :=
  mkClient (url c) (connected c) (conn c) (outBytes c) (outMessages c) (outWindowSize c)
    (outChunkSize c) (outChunkStreams c) (inBytes c) (inMessages c) (inNotify c)
    (inWindowSize c) (inChunkSize c) (inChunkStreams c) (responses c)
    (lastTransactionId c) (connectionId c) m.

(** ** client.go *)

Definition IsAlive (c : Client) : bool :=
  if negb (connected c) then false else true.

(** [NextTransactionId]: [atomic.AddUint32(&c.lastTransactionId, 1)]
    returns the new value, which wraps at 2^32. *)
Definition NextTransactionId (c : Client) : Z * Client :=
  let v := uint32 (lastTransactionId c + 1) in
  (v, set_lastTransactionId v c).

(** [GetResponse]: the mutex is held over the whole body, so the body is
    one step. *)
Definition GetResponse (tid : Z) (c : Client) : Client * option Response * bool :=
  let response := map_index (responses c) tid in
  match response with
  | Some _ => (set_responses (delete tid (responses c)) c, response, true)
  | None => (c, response, false)
  end.

Definition RegisterExternalHandler (name : string) (fn : ExternalHandler)
    (c : Client) : Client :=
  set_amfExternalHandlers (<[name := fn]> (amfExternalHandlers c)) c.

(** [Reset].  [conn.Close()] is called on every non-nil transport and its
    error is dropped; the field [conn] keeps the (closed) transport.  Each
    queue is closed when it is not nil and then replaced by a fresh one.
    [inNotify] and [amfExternalHandlers] are not assigned. *)
Definition Reset (c : Client) : M Client :=
  let closed_conn :=
    match conn c with
    | Some k => Some (fst (conn_Close k))
    | None => None
    end in
  (match outMessages c with Some _ => close (outMessages c) | None => ret tt end) ;;
  (match inMessages c with Some _ => close (inMessages c) | None => ret tt end) ;;
  let* out := make_chan in
  let* inn := make_chan in
  ret (mkClient (url c) false closed_conn
         0 out DEFAULT_WINDOW_SIZE DEFAULT_CHUNK_SIZE ∅
         0 inn (inNotify c) DEFAULT_WINDOW_SIZE DEFAULT_CHUNK_SIZE ∅
         ∅ 0 "" (amfExternalHandlers c)).

(** [NewClient]: the struct literal sets [url] and [amfExternalHandlers];
    every other field has its zero value until [Reset] runs. *)
Definition NewClient (u : string) : M Client :=
  Reset (mkClient u false None 0 None 0 0 ∅ 0 None None 0 0 ∅ ∅ 0 "" ∅).

Definition Disconnect (c : Client) : M Client :=
  let* c' := Reset c in
  log_call LvlDebug "disconnected from %s" [ArgS (url c')] ;;
  ret c'.

(** [Read] and [Write]: a call on a nil transport is a nil dereference.
    [n] is a Go int; [uint32(n)] truncates it and [+=] wraps. *)
Definition Read (p : list byte) (c : Client) : M (Client * list byte * Z * option error) :=
  match conn c with
  | None => panic
  | Some k =>
    let '(k', p', n, err) := conn_Read k p in
    let c' := set_inBytes (uint32 (inBytes c + uint32 n)) (set_conn (Some k') c) in
    log_call LvlTrace "read %d" [ArgZ n] ;;
    ret (c', p', n, err)
  end.

Definition Write (p : list byte) (c : Client) : M (Client * Z * option error) :=
  match conn c with
  | None => panic
  | Some k =>
    let '(k', n, err) := conn_Write k p in
    let c' := set_outBytes (uint32 (outBytes c + uint32 n)) (set_conn (Some k') c) in
    log_call LvlTrace "write %d" [ArgZ n] ;;
    ret (c', n, err)
  end.

(** ** Methods of Client that the two files call and do not define *)

(** The receiver as client_route.go uses it: the struct of client.go and
    the two fields [dec] and [results] that client_route.go names and the
    struct does not declare.  [results] is taken to be a made map, the
    reading most favourable to the router. *)
Record RouterClient := mkRouterClient {
  rc_client : Client;
  dec : Decoder;
  results : gmap Z (option Result)
}.

Class Methods := {
  handshake : Client -> Client * option error;
  connect : Client -> Client * string * option error;
  handleProtocolMessage : Message -> RouterClient -> M RouterClient
}.

Context `{Methods}.

Definition time_Second : Z := 1000000000.
Definition time_Millisecond : Z := 1000000.

(** The part of [Connect] after the switch on the scheme. *)
Definition Connect_session (c : Client) : M (Client * option error) :=
  log_call LvlDebug "handshaking with %s" [ArgS (url c)] ;;
  let '(c1, err) := handshake c in
  match err with
  | Some e =>
    ret (c1, Some (ErrorE "client connect: could not complete handshake: %s" e))
  | None =>
    log_call LvlDebug "sending connect command to %s" [ArgS (url c1)] ;;
    go go_receiveLoop ;;
    go go_sendLoop ;;
    go go_routeLoop ;;
    let '(c2, id, err) := connect c1 in
    match err with
    | Some e =>
      ret (c2, Some (ErrorE "client connect: could not complete connect: %s" e))
    | None =>
      let c3 := set_connectionId id (set_connected true c2) in
      log_call LvlDebug "connected to %s (%s)" [ArgS (url c3); ArgS (connectionId c3)] ;;
      ret (c3, None)
    end
  end.

(** [Connect].  In the "rtmp" case the result of the dial is assigned to
    [c.conn] before the error is looked at; in the "rtmps" case [c.conn]
    is assigned only after the TLS handshake. *)
Definition Connect (c : Client) : M (Client * option error) :=
  log_call LvlDebug "connecting to %s" [ArgS (url c)] ;;
  match url_Parse (url c) with
  | (_, Some e) => ret (c, Some e)
  | (None, None) => panic
  | (Some u, None) =>
    if String.eqb (Scheme u) "rtmp" then
      let '(k, err) := net_DialTimeout "tcp" (Host u) (5 * time_Second) in
      let c1 := set_conn k c in
      match err with
      | Some e => ret (c1, Some e)
      | None => Connect_session c1
      end
    else if String.eqb (Scheme u) "rtmps" then
      let '(nc, err) := net_DialTimeout "tcp" (Host u) (5 * time_Second) in
      match err, nc with
      | Some e, _ => ret (c, Some e)
      | None, None => panic
      | None, Some k =>
        let '(tc, err) := tls_Handshake (tls_Client k) in
        match err with
        | Some e => ret (c, Some e)
        | None => Connect_session (set_conn (Some tc) c)
        end
      end
    else ret (c, Some (ErrorS "Unsupported scheme: %s" (Scheme u)))
  end.

(** ** client_route.go *)

(** [routeCommandMessage]: [uint32(result.TransactionId)] is the key. *)
Definition routeCommandMessage (msg : Message) (rc : RouterClient) : M RouterClient :=
  let '(d, result, err) := DecodeResult msg (dec rc) in
  match err with
  | Some e =>
    log_call LvlError
      "unable to decode message type %d on stream %d into command, discarding: %s"
      [ArgZ (Type_ msg); ArgZ (ChunkStreamId msg); ArgErr e] ;;
    ret (mkRouterClient (rc_client rc) d (results rc))
  | None =>
    match result with
    | None => panic
    | Some res =>
      let tid := uint32 (Result_TransactionId res) in
      ret (mkRouterClient (rc_client rc) d (<[tid := result]> (results rc)))
    end
  end.

(** The switch of [routeLoop] on the chunk stream of one message. *)
Definition routeLoop_switch (msg : Message) (rc : RouterClient) : M RouterClient :=
  if Z.eqb (ChunkStreamId msg) CHUNK_STREAM_ID_PROTOCOL then
    handleProtocolMessage msg rc
  else if Z.eqb (ChunkStreamId msg) CHUNK_STREAM_ID_COMMAND then
    routeCommandMessage msg rc
  else
    log_call LvlWarn "discarding message on unknown chunk stream %d: +%v"
      [ArgZ (ChunkStreamId msg); ArgMsg (Some msg)] ;;
    ret rc.

Inductive LoopState := Exited | Waiting | Running.

(** [routeLoop], one iteration per unit of fuel.  [c.inMessages] is read
    anew in every iteration. *)
Fixpoint routeLoop (fuel : nat) (rc : RouterClient) : M (LoopState * RouterClient) :=
  match fuel with
  | O => ret (Running, rc)
  | S fuel' =>
    let* got := recv (inMessages (rc_client rc)) in
    match got with
    | RecvBlocked => ret (Waiting, rc)
    | RecvClosed =>
      log_call LvlTrace "client route: received message: %#v" [ArgMsg None] ;;
      log_call LvlTrace "client route: channel closed, exiting" [] ;;
      ret (Exited, rc)
    | RecvMsg msg =>
      log_call LvlTrace "client route: received message: %#v" [ArgMsg (Some msg)] ;;
      let* rc' := routeLoop_switch msg rc in
      routeLoop fuel' rc'
    end
  end.

(** [SendMessage]: [c.outMessages <- msg].  A send on a nil channel never
    completes ([false]); a send on a closed channel panics; otherwise the
    message rests in the channel until the send loop receives it. *)
Definition SendMessage (msg : Message) (c : Client) : M bool :=
  fun r => match outMessages c with
           | None => Some (false, r)
           | Some a =>
             match chans r !! a with
             | None => Some (false, r)
             | Some ch =>
               if ch_closed ch then None
               else Some (true, mkRuntime (<[a := mkChan false (ch_queue ch ++ [msg])]> (chans r))
                                          (logged r) (started r))
             end
           end.

(** The select loop of [Call].  Which case of the select fires, and when,
    is decided by the Go scheduler and its timers (a ticker of
    [5 * time_Millisecond], a timer of [t * time_Second]); here the
    sequence of wake-ups is given.  [None]: the caller is still waiting. *)
Inductive Wakeup := Tick | TimedOut.

Fixpoint Call_select (tid : Z) (wakeups : list Wakeup) (c : Client)
    : Client * option (option Response * option error) :=
  match wakeups with
  | [] => (c, None)
  | Tick :: rest =>
    let '(c', res, ready) := GetResponse tid c in
    if ready then (c', Some (res, None)) else Call_select tid rest c'
  | TimedOut :: _ => (c, Some (None, Some ErrResponseTimeout))
  end.

Definition Call (msg : Message) (wakeups : list Wakeup) (c : Client)
    : M (Client * option (option Response * option error)) :=
  let* sent := SendMessage msg c in
  if sent : bool then ret (Call_select (TransactionId msg) wakeups c)
  else ret (c, None).

(** ** Notions used in the statements *)

(** [n] calls of [NextTransactionId] in a row, and the ids they return. *)
Fixpoint allocate (n : nat) (c : Client) : list Z * Client :=
  match n with
  | O => ([], c)
  | S n' =>
    let '(v, c1) := NextTransactionId c in
    let '(vs, c2) := allocate n' c1 in
    (v :: vs, c2)
  end.

Definition strictly_increasing (l : list Z) : Prop :=
  forall (i j : nat) (x y : Z),
    (i < j)%nat -> l !! i = Some x -> l !! j = Some y -> x < y.

(** The channel object behind a queue field. *)
Definition chan_state (r : Runtime) (ch : option nat) : option Chan :=
  match ch with
  | Some a => chans r !! a
  | None => None
  end.

Definition open_or_nil (r : Runtime) (ch : option nat) : Prop :=
  match ch with
  | Some a => exists q, chans r !! a = Some (mkChan false q)
  | None => True
  end.

(** The queues of a session that nothing but [Reset] closes: each is nil
    or an open channel, and the two are different channels. *)
Definition queues_open (c : Client) (r : Runtime) : Prop :=
  open_or_nil r (outMessages c) /\ open_or_nil r (inMessages c) /\
  (forall a, outMessages c = Some a -> inMessages c <> Some a).

(** What can be observed of a session: every field of the struct, with
    each queue given by the state of its channel, not by its address. *)
Definition observe (c : Client) (r : Runtime) : Client * option Chan * option Chan :=
  (mkClient (url c) (connected c) (conn c) (outBytes c) None (outWindowSize c)
     (outChunkSize c) (outChunkStreams c) (inBytes c) None (inNotify c)
     (inWindowSize c) (inChunkSize c) (inChunkStreams c) (responses c)
     (lastTransactionId c) (connectionId c) (amfExternalHandlers c),
   chan_state r (outMessages c), chan_state r (inMessages c)).

(** The state in which [Reset] leaves a session. *)
Definition cleared (c : Client) (r : Runtime) : Prop :=
  connected c = false /\
  outBytes c = 0 /\ inBytes c = 0 /\ lastTransactionId c = 0 /\
  outChunkStreams c = ∅ /\ inChunkStreams c = ∅ /\ responses c = ∅ /\
  connectionId c = "" /\
  outChunkSize c = DEFAULT_CHUNK_SIZE /\ inChunkSize c = DEFAULT_CHUNK_SIZE /\
  outWindowSize c = DEFAULT_WINDOW_SIZE /\ inWindowSize c = DEFAULT_WINDOW_SIZE /\
  chan_state r (outMessages c) = Some (mkChan false []) /\
  chan_state r (inMessages c) = Some (mkChan false []).

Definition is_closed (r : Runtime) (ch : option nat) : Prop :=
  match ch with
  | Some a => exists q, chans r !! a = Some (mkChan true q)
  | None => True
  end.

(** A session that is already closed: cleared, with queues that [Reset]
    can close, and with no transport or one on which Close changes
    nothing any more. *)
Definition closed_session (c : Client) (r : Runtime) : Prop :=
  cleared c r /\ queues_open c r /\
  (forall k, conn c = Some k -> fst (conn_Close k) = k).

(** Every step of [Connect] succeeds: the URL parses, its scheme is one of
    the two supported, the dial succeeds (and for rtmps the TLS
    handshake), the RTMP handshake succeeds and the connect command comes
    back with a connection id. *)
Definition connect_steps_succeed (c : Client) : Prop :=
  exists (u : URL) (k : option Conn) (c1 c2 : Client) (id : string),
    url_Parse (url c) = (Some u, None) /\
    ((Scheme u = "rtmp" /\
      net_DialTimeout "tcp" (Host u) (5 * time_Second) = (k, None)) \/
     (Scheme u = "rtmps" /\
      exists nc tc, net_DialTimeout "tcp" (Host u) (5 * time_Second) = (Some nc, None) /\
                    tls_Handshake (tls_Client nc) = (tc, None) /\ k = Some tc)) /\
    handshake (set_conn k c) = (c1, None) /\
    connect c1 = (c2, id, None).

(** The effect of the router on one message is no more than lines of the
    log: the receiver and the channels are as before, nothing is started. *)
Definition only_logged (rc rc' : RouterClient) (r r' : Runtime) : Prop :=
  rc' = rc /\ chans r' = chans r /\ started r' = started r /\
  exists l, logged r' = logged r ++ l.

(** A sequence of [Read]s, one per buffer, and of [Write]s, with the byte
    counts the transport returned. *)
Fixpoint Reads (ps : list (list byte)) (c : Client) : M (Client * list Z) :=
  match ps with
  | [] => ret (c, [])
  | p :: ps' =>
    let* (c1, _, n, _) := Read p c in
    let* (c2, ns) := Reads ps' c1 in
    ret (c2, n :: ns)
  end.

Fixpoint Writes (ps : list (list byte)) (c : Client) : M (Client * list Z) :=
  match ps with
  | [] => ret (c, [])
  | p :: ps' =>
    let* (c1, n, _) := Write p c in
    let* (c2, ns) := Writes ps' c1 in
    ret (c2, n :: ns)
  end.

Definition sum_Z (ns : list Z) : Z := fold_right Z.add 0 ns.






(** The router hands a message on: its step on the message succeeds and
    does more than write to the log (it changes the receiver or a channel,
    or starts something). *)
Definition handed_on (msg : Message) (rc : RouterClient) (r : Runtime) : Prop :=
  exists rc' r', routeLoop_switch msg rc r = Some (rc', r') /\
                 ~ only_logged rc rc' r r'.

End Session.

Arguments Client {_}.
Arguments RouterClient {_}.
Arguments Methods {_}.

(** ** A concrete transport, codec and peer, to run the definitions *)

Module Sample.

Record Wire := mkWire { closed : bool; incoming : list byte; sent : list byte }.

Definition wire_Read (k : Wire) (p : list byte) : Wire * list byte * Z * option error :=
  if closed k then (k, p, 0, Some (errors_New "use of closed network connection"))
  else
    let n := Nat.min (length p) (length (incoming k)) in
    (mkWire false (drop n (incoming k)) (sent k),
     take n (incoming k) ++ drop n p, Z.of_nat n, None).

Definition wire_Write (k : Wire) (p : list byte) : Wire * Z * option error :=
  if closed k then (k, 0, Some (errors_New "use of closed network connection"))
  else (mkWire false (incoming k) (sent k ++ p), Z.of_nat (length p), None).

Definition wire_Close (k : Wire) : Wire * option error :=
  (mkWire true (incoming k) (sent k),
   if closed k then Some (errors_New "use of closed network connection") else None).

Definition parse (s : string) : option URL * option error :=
  if String.prefix "rtmp://" s then
    (Some (mkURL "rtmp" (String.substring 7 (String.length s - 7) s)), None)
  else if String.prefix "rtmps://" s then
    (Some (mkURL "rtmps" (String.substring 8 (String.length s - 8) s)), None)
  else if String.prefix "http://" s then
    (Some (mkURL "http" (String.substring 7 (String.length s - 7) s)), None)
  else (None, Some (errors_New "parse: missing protocol scheme")).

Definition dial (network host : string) (timeout : Z) : option Wire * option error :=
  if String.eqb host "" then (None, Some (errors_New "dial tcp: missing address"))
  else (Some (mkWire false [] []), None).

Record Reply := mkReply { reply_tid : Z; reply_name : string }.

(** A command message (type 20) decodes to a reply that carries the
    transaction id of the message; anything else fails to decode. *)
Definition decode (msg : Message) (d : nat) : nat * option Reply * option error :=
  if Z.eqb (Type_ msg) 20 then
    (S d, Some (mkReply (TransactionId msg) "_result"), None)
  else (d, None, Some (errors_New "amf: unexpected marker")).

#[export] Instance types : Types := {|
  Conn := Wire;
  conn_Read := wire_Read;
  conn_Write := wire_Write;
  conn_Close := wire_Close;
  url_Parse := parse;
  net_DialTimeout := dial;
  tls_Client := fun k => k;
  tls_Handshake := fun k => (k, None);
  OutboundChunkStream := unit;
  InboundChunkStream := unit;
  ExternalHandler := unit;
  Decoder := nat;
  Response := Reply;
  Result := Reply;
  Result_TransactionId := reply_tid;
  DecodeResult := decode;
  DEFAULT_CHUNK_SIZE := 128;
  DEFAULT_WINDOW_SIZE := 2500000;
  CHUNK_STREAM_ID_PROTOCOL := 2;
  CHUNK_STREAM_ID_COMMAND := 3
|}.

(** A peer that completes the handshake on an open transport and answers
    the connect command unless the host is "refuse". *)
Definition sample_handshake (c : Client) : Client * option error :=
  match conn c with
  | Some k =>
    if closed k then (c, Some (errors_New "EOF")) else (set_outBytes 1537 (set_inBytes 3073 c), None)
  | None => (c, Some (errors_New "EOF"))
  end.

Definition sample_connect (c : Client) : Client * string * option error :=
  if String.eqb (url c) "rtmp://refuse" then (c, "", Some ErrResponseTimeout)
  else (snd (NextTransactionId c), "conn-1", None).

#[export] Instance methods : Methods := {|
  handshake := sample_handshake;
  connect := sample_connect;
  handleProtocolMessage := fun _ rc => ret rc
|}.

(** The client of [NewClient("rtmp://example/app")] on a new runtime. *)
Definition client0 : Client :=
  mkClient "rtmp://example/app" false None 0 (Some 0%nat) 2500000 128 ∅
    0 (Some 1%nat) None 2500000 128 ∅ ∅ 0 "" ∅.

Definition runtime1 : Runtime := mkRuntime [mkChan false []; mkChan false []] [] [].

Definition router0 : RouterClient := mkRouterClient client0 0%nat ∅.

(** An inbound command message that decodes to transaction id 7, and a
    message on chunk stream 5 (neither 2 nor 3). *)
Definition command7 : Message := mkMessage 3 20 0 0 7 [].
Definition media5 : Message := mkMessage 5 9 0 1 0 [].

Definition counter_at (v : Z) : Client := set_lastTransactionId v client0.

Definition reply7 : Reply := mkReply 7 "_result".

(** A connected session in use: a response waits under id 7, the inbound
    counter is about to wrap, an outbound message waits in its queue. *)
Definition wire3 : Wire := mkWire false [x01; x02; x03] [x03].

Definition live : Client :=
  mkClient "rtmp://example/app" true (Some wire3) 1537 (Some 0%nat) 2500000 4096 ∅
    4294967295 (Some 1%nat) None 2500000 128 ∅ (<[7 := Some reply7]> ∅) 7 "conn-1" ∅.

Definition runtime_live : Runtime :=
  mkRuntime [mkChan false [command7]; mkChan false []] []
    [go_receiveLoop; go_sendLoop; go_routeLoop].

(** [live] after a Reset on [runtime_live]. *)
Definition live_reset : Client :=
  mkClient "rtmp://example/app" false (Some (mkWire true [x01; x02; x03] [x03]))
    0 (Some 2%nat) 2500000 128 ∅ 0 (Some 3%nat) None 2500000 128 ∅ ∅ 0 "" ∅.

Definition runtime_live_reset : Runtime :=
  mkRuntime [mkChan true [command7]; mkChan true []; mkChan false []; mkChan false []] []
    [go_receiveLoop; go_sendLoop; go_routeLoop].

(** A disconnected client for a given URL that still holds an earlier
    transport. *)
Definition client_for (u : string) : Client :=
  mkClient u false (Some wire3) 0 (Some 0%nat) 2500000 128 ∅
    0 (Some 1%nat) None 2500000 128 ∅ ∅ 0 "" ∅.


End Sample.

(** * Properties *)

(** ** Arithmetic of uint32 *)

Lemma uint32_range (z : Z) : in_uint32 (uint32 z).
Proof. unfold in_uint32, uint32, uint32_modulus. apply Z.mod_pos_bound. lia. Qed.

Lemma uint32_small (z : Z) : in_uint32 z -> uint32 z = z.
Proof. unfold in_uint32, uint32. intros Hz. apply Z.mod_small. exact Hz. Qed.

Lemma uint32_add_l (a b : Z) : uint32 (uint32 a + b) = uint32 (a + b).
Proof. unfold uint32, uint32_modulus. apply Zplus_mod_idemp_l. Qed.

Lemma uint32_add_r (a b : Z) : uint32 (a + uint32 b) = uint32 (a + b).
Proof. unfold uint32, uint32_modulus. apply Zplus_mod_idemp_r. Qed.

Section ClientProperties.
Context `{Types}.

(** ** The pending-response table *)

Lemma map_index_Some {V} (m : gmap Z (option V)) (k : Z) (v : V) :
  map_index m k = Some v <-> m !! k = Some (Some v).
Proof.
  unfold map_index. destruct (m !! k) as [[w|]|]; simpl; split; congruence.
Qed.

Lemma map_index_delete {V} (m : gmap Z (option V)) (k : Z) :
  map_index (delete k m) k = None.
Proof. unfold map_index. rewrite lookup_delete_eq. reflexivity. Qed.

Lemma GetResponse_ready (c : Client) (tid : Z) (resp : Response) :
  map_index (responses c) tid = Some resp ->
  GetResponse tid c = (set_responses (delete tid (responses c)) c, Some resp, true).
Proof. intros Hget. unfold GetResponse. rewrite Hget. reflexivity. Qed.

Lemma GetResponse_absent (c : Client) (tid : Z) :
  map_index (responses c) tid = None -> GetResponse tid c = (c, None, false).
Proof. intros Hget. unfold GetResponse. rewrite Hget. reflexivity. Qed.

(** C4.  Retrieval is one step and delivers at most once: when a response
    is stored under [tid], [GetResponse] returns it with ready = true and
    deletes exactly that entry, and a second retrieval right after it
    reports not ready; when nothing is stored under [tid], it reports
    not ready (nil, false). *)
Theorem GetResponse_single_delivery (c : Client) (tid : Z) :
  (forall resp : Response,
      responses c !! tid = Some (Some resp) ->
      exists c1 : Client,
        GetResponse tid c = (c1, Some resp, true) /\
        responses c1 = delete tid (responses c) /\
        responses c1 !! tid = None /\
        GetResponse tid c1 = (c1, None, false)) /\
  (map_index (responses c) tid = None ->
   GetResponse tid c = (c, None, false)).
Proof.
  split.
  - intros resp Hstored.
    exists (set_responses (delete tid (responses c)) c).
    split; [apply GetResponse_ready; apply map_index_Some; exact Hstored|].
    split; [reflexivity|].
    split; [simpl; apply lookup_delete_eq|].
    apply GetResponse_absent. simpl. apply map_index_delete.
  - apply GetResponse_absent.
Qed.

(** C9.  A retrieval for an id without a stored response returns the
    not-ready result and leaves the client, and with it every entry of
    the table, as it was. *)
Theorem GetResponse_not_ready_unchanged (c : Client) (tid : Z) :
  map_index (responses c) tid = None ->
  exists c1 : Client,
    GetResponse tid c = (c1, None, false) /\
    c1 = c /\
    (forall k : Z, responses c1 !! k = responses c !! k).
Proof.
  intros Hnone. exists c.
  split; [apply GetResponse_absent; exact Hnone|].
  split; [reflexivity|]. intros k. reflexivity.
Qed.

(** ** Transaction ids *)

Lemma allocate_length (n : nat) (c : Client) : length (fst (allocate n c)) = n.
Proof.
  revert c. induction n as [|n IH]; intros c; [reflexivity|].
  simpl. specialize (IH (set_lastTransactionId (uint32 (lastTransactionId c + 1)) c)).
  destruct (allocate n _) as [vs c2]. simpl in *. congruence.
Qed.

Lemma allocate_lookup (n : nat) (c : Client) (i : nat) :
  (i < n)%nat ->
  fst (allocate n c) !! i = Some (uint32 (lastTransactionId c + Z.of_nat i + 1)).
Proof.
  revert c i. induction n as [|n IH]; intros c i Hi; [lia|].
  simpl.
  pose proof (IH (set_lastTransactionId (uint32 (lastTransactionId c + 1)) c)) as IH'.
  destruct (allocate n _) as [vs c2]. simpl in *.
  destruct i as [|i].
  - simpl. f_equal. f_equal. lia.
  - simpl. rewrite IH' by lia. f_equal.
    rewrite <- Z.add_assoc, uint32_add_l. f_equal. lia.
Qed.

Lemma increasing_NoDup (l : list Z) : strictly_increasing l -> NoDup l.
Proof.
  intros Hinc. apply NoDup_alt. intros i j x Hi Hj.
  destruct (Nat.lt_trichotomy i j) as [Hlt|[Heq|Hgt]]; [|exact Heq|].
  - pose proof (Hinc i j x x Hlt Hi Hj). lia.
  - pose proof (Hinc j i x x Hgt Hj Hi). lia.
Qed.

Lemma allocate_wraps (n : nat) (c : Client) :
  lastTransactionId c = 0 ->
  Z.of_nat n = uint32_modulus ->
  ~ strictly_increasing (fst (allocate n c)).
Proof.
  intros Hzero Hn Hinc.
  change uint32_modulus with 4294967296 in Hn.
  assert (Hlast : fst (allocate n c) !! (n - 1)%nat = Some 0).
  { rewrite allocate_lookup by lia. rewrite Hzero.
    replace (0 + Z.of_nat (n - 1) + 1) with 4294967296 by lia. reflexivity. }
  assert (Hprev : fst (allocate n c) !! (n - 2)%nat = Some 4294967295).
  { rewrite allocate_lookup by lia. rewrite Hzero.
    replace (0 + Z.of_nat (n - 2) + 1) with 4294967295 by lia. reflexivity. }
  assert (Hlt : (n - 2 < n - 1)%nat) by lia.
  pose proof (Hinc _ _ _ _ Hlt Hprev Hlast). lia.
Qed.

(** C5, as the code has it.  While the counter does not pass 2^32 - 1, in
    particular for the first 2^32 - 1 allocations after a Reset, [N] calls
    in a row return the [N] successors of the counter: strictly
    increasing and without repeats. *)
Theorem allocate_increasing_until_wrap (c : Client) (N : nat) :
  in_uint32 (lastTransactionId c) ->
  lastTransactionId c + Z.of_nat N < uint32_modulus ->
  length (fst (allocate N c)) = N /\
  (forall i : nat, (i < N)%nat ->
     fst (allocate N c) !! i = Some (lastTransactionId c + Z.of_nat i + 1)) /\
  strictly_increasing (fst (allocate N c)) /\
  NoDup (fst (allocate N c)).
Proof.
  intros [Hlo Hhi] Hbound.
  assert (Hget : forall i : nat, (i < N)%nat ->
     fst (allocate N c) !! i = Some (lastTransactionId c + Z.of_nat i + 1)).
  { intros i Hi. rewrite allocate_lookup by exact Hi. f_equal.
    apply uint32_small. unfold in_uint32. lia. }
  assert (Hinc : strictly_increasing (fst (allocate N c))).
  { intros i j x y Hij Hi Hj.
    assert (Hj' : (j < N)%nat).
    { apply lookup_lt_Some in Hj. rewrite allocate_length in Hj. exact Hj. }
    rewrite Hget in Hi by lia. rewrite Hget in Hj by lia.
    injection Hi as <-. injection Hj as <-. lia. }
  split; [apply allocate_length|].
  split; [exact Hget|].
  split; [exact Hinc|].
  apply increasing_NoDup, Hinc.
Qed.

(** ** The byte counters *)

(** C10.  On a client with a transport, [Read] returns what the
    transport's Read returns and adds its byte count to [inBytes] modulo
    2^32; [Write] does the same with [outBytes].  Neither touches the
    other counter. *)
Theorem Read_Write_count_bytes (c : Client) (k : Conn) (p : list byte) (r : Runtime) :
  conn c = Some k ->
  (forall k' p' n err,
      conn_Read k p = (k', p', n, err) ->
      exists c' r',
        Read p c r = Some (c', p', n, err, r') /\
        inBytes c' = (inBytes c + n) mod 2 ^ 32 /\
        outBytes c' = outBytes c /\
        conn c' = Some k') /\
  (forall k' n err,
      conn_Write k p = (k', n, err) ->
      exists c' r',
        Write p c r = Some (c', n, err, r') /\
        outBytes c' = (outBytes c + n) mod 2 ^ 32 /\
        inBytes c' = inBytes c /\
        conn c' = Some k').
Proof.
  intros Hconn. split.
  - intros k' p' n err Hread. unfold Read. rewrite Hconn, Hread.
    eexists _, _. split; [reflexivity|]. simpl.
    split; [apply uint32_add_r|]. split; reflexivity.
  - intros k' n err Hwrite. unfold Write. rewrite Hconn, Hwrite.
    eexists _, _. split; [reflexivity|]. simpl.
    split; [apply uint32_add_r|]. split; reflexivity.
Qed.

End ClientProperties.

(** C5, as the spec has it, fails: on a new client the 2^32 allocations of
    one session are not strictly increasing, since the last one returns 0
    after 4294967295. *)
Lemma allocate_not_increasing_after_wrap :
  ~ strictly_increasing (fst (allocate (Z.to_nat 4294967296) Sample.client0)).
Proof.
  apply allocate_wraps; [reflexivity|].
  rewrite Z2Nat.id by lia. reflexivity.
Qed.

Example allocate_across_wrap :
  fst (allocate 3 (Sample.counter_at 4294967294)) = [4294967295; 0; 1].
Proof. reflexivity. Qed.

Section Lifecycle.
Context `{Types}.

(** ** Closing and replacing the queues *)

Lemma guarded_close_inv (ch : option nat) (r r' : Runtime) (u : unit) :
  (match ch with Some _ => close ch | None => ret tt end) r = Some (u, r') ->
  logged r' = logged r /\ started r' = started r /\
  length (chans r') = length (chans r) /\
  is_closed r' ch /\
  (forall b, ch <> Some b -> chans r' !! b = chans r !! b) /\
  (forall b q, chans r !! b = Some (mkChan true q) ->
               chans r' !! b = Some (mkChan true q)).
Proof.
  destruct ch as [a|]; simpl.
  - unfold close. destruct (chans r !! a) as [[cl q]|] eqn:Ha; [|discriminate].
    simpl. destruct cl; [discriminate|]. intros [= <- <-]. simpl.
    assert (Hlt : (a < length (chans r))%nat) by (eapply lookup_lt_Some; eassumption).
    repeat split.
    + apply length_insert.
    + exists q. apply list_lookup_insert_eq. exact Hlt.
    + intros b Hb. apply list_lookup_insert_ne. congruence.
    + intros b q' Hb. rewrite list_lookup_insert_ne; [exact Hb|]. congruence.
  - unfold ret. intros [= <- <-]. repeat split; auto.
Qed.

Lemma guarded_close_open (ch : option nat) (r : Runtime) :
  open_or_nil r ch ->
  exists r', (match ch with Some _ => close ch | None => ret tt end) r = Some (tt, r').
Proof.
  destruct ch as [a|]; simpl.
  - intros [q Hq]. unfold close. rewrite Hq. simpl. eexists. reflexivity.
  - intros _. eexists. reflexivity.
Qed.

Lemma Reset_inv (c c' : Client) (r r' : Runtime) :
  Reset c r = Some (c', r') ->
  c' = mkClient (url c) false
         (match conn c with Some k => Some (fst (conn_Close k)) | None => None end)
         0 (Some (length (chans r))) DEFAULT_WINDOW_SIZE DEFAULT_CHUNK_SIZE ∅
         0 (Some (S (length (chans r)))) (inNotify c)
         DEFAULT_WINDOW_SIZE DEFAULT_CHUNK_SIZE ∅ ∅ 0 "" (amfExternalHandlers c) /\
  logged r' = logged r /\ started r' = started r /\
  length (chans r') = S (S (length (chans r))) /\
  chans r' !! length (chans r) = Some (mkChan false []) /\
  chans r' !! S (length (chans r)) = Some (mkChan false []) /\
  is_closed r' (outMessages c) /\ is_closed r' (inMessages c).
Proof.
  unfold Reset, bind. intros HR.
  destruct ((match outMessages c with Some _ => close (outMessages c) | None => ret tt end) r)
    as [[u1 r1]|] eqn:E1; [|discriminate].
  destruct ((match inMessages c with Some _ => close (inMessages c) | None => ret tt end) r1)
    as [[u2 r2]|] eqn:E2; [|discriminate].
  apply guarded_close_inv in E1 as (Hl1 & Hs1 & Hn1 & Hc1 & _ & _).
  apply guarded_close_inv in E2 as (Hl2 & Hs2 & Hn2 & Hc2 & _ & Hkeep).
  unfold make_chan, ret in HR. simpl in HR. injection HR as <- <-. simpl.
  rewrite length_app, Hn2, Hn1. simpl.
  assert (Hfresh1 : ((chans r2 ++ [mkChan false []]) ++ [mkChan false []]) !! length (chans r)
                    = Some (mkChan false [])).
  { rewrite lookup_app_l by (rewrite length_app; simpl; lia).
    rewrite lookup_app_r by lia. rewrite Hn2, Hn1, Nat.sub_diag. reflexivity. }
  assert (Hfresh2 : ((chans r2 ++ [mkChan false []]) ++ [mkChan false []]) !! S (length (chans r))
                    = Some (mkChan false [])).
  { rewrite lookup_app_r by (rewrite length_app; simpl; lia).
    rewrite length_app, Hn2, Hn1. simpl.
    replace (S (length (chans r)) - (length (chans r) + 1))%nat with O by lia. reflexivity. }
  assert (Hold : forall b q, chans r2 !! b = Some (mkChan true q) ->
            ((chans r2 ++ [mkChan false []]) ++ [mkChan false []]) !! b = Some (mkChan true q)).
  { intros b q Hb. assert (b < length (chans r2))%nat by (eapply lookup_lt_Some; eassumption).
    rewrite lookup_app_l by (rewrite length_app; simpl; lia).
    rewrite lookup_app_l by lia. exact Hb. }
  split; [rewrite Nat.add_1_r; reflexivity|].
  split; [rewrite Hl2, Hl1; reflexivity|].
  split; [rewrite Hs2, Hs1; reflexivity|].
  split; [rewrite !length_app, Hn2, Hn1; simpl; lia|].
  split; [exact Hfresh1|].
  split; [exact Hfresh2|].
  split.
  - destruct (outMessages c) as [a|]; simpl in *; [|exact I].
    destruct Hc1 as [q Hq]. exists q. apply Hold, Hkeep, Hq.
  - destruct (inMessages c) as [a|]; simpl in *; [|exact I].
    destruct Hc2 as [q Hq]. exists q. apply Hold, Hq.
Qed.

Lemma Reset_total (c : Client) (r : Runtime) :
  queues_open c r -> exists c' r', Reset c r = Some (c', r').
Proof.
  intros (Hout & Hin & Hne). unfold Reset, bind.
  destruct (guarded_close_open _ _ Hout) as [r1 E1]. rewrite E1.
  pose proof (guarded_close_inv _ _ _ _ E1) as (_ & _ & _ & _ & Hsame & _).
  assert (Hin1 : open_or_nil r1 (inMessages c)).
  { destruct (inMessages c) as [b|] eqn:Eb; simpl in *; [|exact I].
    destruct Hin as [q Hq]. exists q. rewrite Hsame; [exact Hq|].
    intros Heq. apply (Hne b Heq). reflexivity. }
  destruct (guarded_close_open _ _ Hin1) as [r2 E2]. rewrite E2.
  unfold make_chan, ret. simpl. eexists _, _. reflexivity.
Qed.

Lemma Reset_result_closed_session (c c' : Client) (r r' : Runtime) :
  (forall k, fst (conn_Close (fst (conn_Close k))) = fst (conn_Close k)) ->
  Reset c r = Some (c', r') -> closed_session c' r'.
Proof.
  intros Hidem HR.
  apply Reset_inv in HR as (-> & Hl & Hs & Hn & Hf1 & Hf2 & _ & _).
  split; [|split].
  - unfold cleared. simpl. repeat split; assumption.
  - unfold queues_open. simpl. split; [|split].
    + exists []. exact Hf1.
    + exists []. exact Hf2.
    + intros a [= <-] [= Hbad]. lia.
  - simpl. intros k Hk. destruct (conn c) as [k0|]; [|discriminate].
    injection Hk as <-. apply Hidem.
Qed.

Lemma Disconnect_unfold (c : Client) (r : Runtime) :
  Disconnect c r =
  match Reset c r with
  | Some (c1, r1) =>
    Some (c1, mkRuntime (chans r1)
                (logged r1 ++ [mkLog LvlDebug "disconnected from %s" [ArgS (url c1)]])
                (started r1))
  | None => None
  end.
Proof.
  unfold Disconnect, bind. destruct (Reset c r) as [[c1 r1]|]; reflexivity.
Qed.

Lemma Reset_again (c : Client) (r : Runtime) :
  closed_session c r ->
  exists c2 r2, Reset c r = Some (c2, r2) /\ observe c2 r2 = observe c r.
Proof.
  intros (Hclr & Hq & Hconn).
  destruct (Reset_total _ _ Hq) as (c2 & r2 & HR). exists c2, r2.
  split; [exact HR|].
  apply Reset_inv in HR as (-> & _ & _ & _ & Hf1 & Hf2 & _ & _).
  destruct Hclr as (Hc & Hob & Hib & Htid & Hocs & Hics & Hresp & Hid & Hocz & Hicz
                    & Howz & Hiwz & Hoq & Hiq).
  unfold observe. simpl. rewrite Hf1, Hf2, Hoq, Hiq.
  f_equal. f_equal.
  destruct c as [u cn k ob om ow oc ocs ib im inn iw ic ics rs tid cid hs].
  simpl in *. subst.
  f_equal. destruct k as [k|]; [|reflexivity]. f_equal. apply Hconn. reflexivity.
Qed.

Lemma closed_session_chans (c : Client) (r r' : Runtime) :
  chans r' = chans r -> closed_session c r -> closed_session c r'.
Proof.
  intros Hch. unfold closed_session, cleared, queues_open, open_or_nil, chan_state.
  rewrite Hch. tauto.
Qed.

Lemma observe_chans (c : Client) (r r' : Runtime) :
  chans r' = chans r -> observe c r' = observe c r.
Proof. intros Hch. unfold observe, chan_state. rewrite Hch. reflexivity. Qed.

(** C7.  Given a transport on which a second Close changes nothing:
    on a session whose queues are open, [Reset] and [Disconnect] succeed,
    call Close on the transport, close both queues, and leave the session
    cleared (connected = false, counters 0, maps empty, sizes at their
    defaults, two new empty queues); on a session that is already closed
    they succeed again and what can be observed of the session is as
    before. *)
Theorem Reset_Disconnect_close_and_clear (c : Client) (r : Runtime) :
  (forall k, fst (conn_Close (fst (conn_Close k))) = fst (conn_Close k)) ->
  (queues_open c r ->
   exists c1 r1 r1',
     Reset c r = Some (c1, r1) /\
     Disconnect c r = Some (c1, r1') /\
     chans r1' = chans r1 /\
     conn c1 = (fun k => fst (conn_Close k)) <$> conn c /\
     is_closed r1 (outMessages c) /\
     is_closed r1 (inMessages c) /\
     closed_session c1 r1 /\
     closed_session c1 r1') /\
  (closed_session c r ->
   exists c2 r2 r2',
     Reset c r = Some (c2, r2) /\
     Disconnect c r = Some (c2, r2') /\
     observe c2 r2 = observe c r /\
     observe c2 r2' = observe c r /\
     closed_session c2 r2 /\
     closed_session c2 r2').
Proof.
  intros Hidem. split.
  - intros Hq.
    destruct (Reset_total _ _ Hq) as (c1 & r1 & HR).
    pose proof (Reset_result_closed_session _ _ _ _ Hidem HR) as Hcs.
    pose proof (Reset_inv _ _ _ _ HR) as (Hc1 & _ & _ & _ & _ & _ & Hco & Hci).
    exists c1, r1. eexists.
    split; [exact HR|].
    split; [rewrite Disconnect_unfold, HR; reflexivity|].
    split; [reflexivity|].
    split; [rewrite Hc1; simpl; destruct (conn c); reflexivity|].
    split; [exact Hco|]. split; [exact Hci|].
    split; [exact Hcs|].
    eapply closed_session_chans; [|exact Hcs]. reflexivity.
  - intros Hcs.
    destruct (Reset_again _ _ Hcs) as (c2 & r2 & HR & Hobs).
    pose proof (Reset_result_closed_session _ _ _ _ Hidem HR) as Hcs2.
    exists c2, r2. eexists.
    split; [exact HR|].
    split; [rewrite Disconnect_unfold, HR; reflexivity|].
    split; [exact Hobs|].
    split; [rewrite <- Hobs; apply observe_chans; reflexivity|].
    split; [exact Hcs2|].
    eapply closed_session_chans; [|exact Hcs2]. reflexivity.
Qed.

Lemma NewClient_total (u : string) (r : Runtime) :
  exists c r', NewClient u r = Some (c, r').
Proof.
  unfold NewClient. apply Reset_total.
  unfold queues_open. simpl. split; [exact I|]. split; [exact I|]. discriminate.
Qed.

Lemma Reset_counter (c c' : Client) (r r' : Runtime) :
  Reset c r = Some (c', r') ->
  lastTransactionId c' = 0 /\ fst (NextTransactionId c') = 1.
Proof.
  intros HR. apply Reset_inv in HR as (-> & _). split; reflexivity.
Qed.

(** C8.  [NewClient] and every [Reset] leave the counter at 0, so the next
    id is 1; hence the first id of the session after a Reset is again 1,
    the first id of the session before it. *)
Theorem Reset_restarts_transaction_ids :
  (forall (u : string) (r : Runtime),
      exists c r', NewClient u r = Some (c, r') /\
                   lastTransactionId c = 0 /\ fst (NextTransactionId c) = 1) /\
  (forall (c : Client) (r : Runtime),
      queues_open c r ->
      exists c' r', Reset c r = Some (c', r') /\
                    lastTransactionId c' = 0 /\ fst (NextTransactionId c') = 1) /\
  (forall (c c' : Client) (r r' : Runtime),
      Reset c r = Some (c', r') ->
      lastTransactionId c' = 0 /\ fst (NextTransactionId c') = 1) /\
  (forall (u : string) (r : Runtime),
      exists c1 r1 c2 r2,
        NewClient u r = Some (c1, r1) /\
        Reset (snd (NextTransactionId c1)) r1 = Some (c2, r2) /\
        fst (NextTransactionId c1) = 1 /\
        fst (NextTransactionId c2) = 1).
Proof.
  split; [|split; [|split]].
  - intros u r. destruct (NewClient_total u r) as (c & r' & HN).
    exists c, r'. split; [exact HN|].
    unfold NewClient in HN. apply (Reset_counter _ _ _ _ HN).
  - intros c r Hq. destruct (Reset_total _ _ Hq) as (c' & r' & HR).
    exists c', r'. split; [exact HR|]. apply (Reset_counter _ _ _ _ HR).
  - intros c c' r r' HR. apply (Reset_counter _ _ _ _ HR).
  - intros u r. destruct (NewClient_total u r) as (c1 & r1 & HN).
    exists c1, r1. unfold NewClient in HN |- *.
    pose proof (Reset_counter _ _ _ _ HN) as [_ Hone].
    assert (Hq : queues_open (snd (NextTransactionId c1)) r1).
    { pose proof HN as HN'.
      apply Reset_inv in HN' as (-> & _ & _ & _ & Hf1 & Hf2 & _ & _).
      unfold queues_open. simpl. split; [|split].
      - exists []. exact Hf1.
      - exists []. exact Hf2.
      - intros a [= <-] [= Hbad]. lia. }
    destruct (Reset_total _ _ Hq) as (c2 & r2 & HR).
    exists c2, r2.
    split; [exact HN|]. split; [exact HR|]. split; [exact Hone|].
    apply (Reset_counter _ _ _ _ HR).
Qed.

End Lifecycle.

Section Routing.
Context `{Types} `{!Methods}.

(** ** Connect *)

Ltac run_go := unfold bind, ret, log_call, go; simpl.

Lemma Connect_session_spec (c : Client) (r : Runtime) :
  (forall x, connected (fst (handshake x)) = connected x) ->
  (forall x, connected (fst (fst (connect x))) = connected x) ->
  connected c = false ->
  exists c' err r',
    Connect_session c r = Some (c', err, r') /\
    (err = None <->
     exists c1 c2 id, handshake c = (c1, None) /\ connect c1 = (c2, id, None)) /\
    (connected c' = true <-> err = None).
Proof.
  intros Hh Hc Hoff. unfold Connect_session. run_go.
  pose proof (Hh c) as Hh1.
  destruct (handshake c) as [c1 [e|]] eqn:Eh; simpl in Hh1; run_go.
  - eexists _, _, _. split; [reflexivity|]. split.
    + split; [discriminate|]. intros (? & ? & ? & [=] & _).
    + split; [congruence|discriminate].
  - pose proof (Hc c1) as Hc1.
    destruct (connect c1) as [[c2 id] [e|]] eqn:Ec; simpl in Hc1; run_go.
    + eexists _, _, _. split; [reflexivity|]. split.
      * split; [discriminate|]. intros (? & ? & ? & [= <-] & Hbad). congruence.
      * split; [congruence|discriminate].
    + eexists _, _, _. split; [reflexivity|]. split.
      * split; [|reflexivity]. intros _. exists c1, c2, id. split; [reflexivity|exact Ec].
      * simpl. split; reflexivity.
Qed.

(** C6.  On a disconnected session, given that the handshake and the
    connect command do not write the connected flag and that url.Parse
    and the dial return a value or an error: [Connect] returns; it returns
    no error exactly when every step succeeded; and the connected flag is
    true afterwards exactly when it returned no error, so every failure
    leaves it false. *)
Theorem Connect_connected_only_on_success (c : Client) (r : Runtime) :
  (forall x, connected (fst (handshake x)) = connected x) ->
  (forall x, connected (fst (fst (connect x))) = connected x) ->
  (forall s, url_Parse s <> (None, None)) ->
  (forall a b t, net_DialTimeout a b t <> (None, None)) ->
  connected c = false ->
  exists c' err r',
    Connect c r = Some (c', err, r') /\
    (err = None <-> connect_steps_succeed c) /\
    (connected c' = true <-> err = None) /\
    (err <> None -> connected c' = false).
Proof.
  intros Hh Hc Hparse Hdial Hoff.
  assert (Hgoal : exists c' err r',
    Connect c r = Some (c', err, r') /\
    (err = None <-> connect_steps_succeed c) /\
    (connected c' = true <-> err = None)).
  2:{ destruct Hgoal as (c' & err & r' & HC & Hsteps & Hflag).
      exists c', err, r'. repeat split; try tauto.
      intros Herr. destruct (connected c') eqn:E; [|reflexivity].
      exfalso. apply Herr. tauto. }
  unfold Connect, connect_steps_succeed. run_go.
  pose proof (Hparse (url c)) as Hp.
  destruct (url_Parse (url c)) as [ou [e|]] eqn:Ep.
  { (* the URL does not parse *)
    destruct ou; eexists _, _, _.
    all: split; [reflexivity|]; split.
    all: try (rewrite Hoff; split; discriminate).
    all: split; [discriminate|]; intros (? & ? & ? & ? & ? & [=] & _). }
  destruct ou as [u|]; [|congruence]. clear Hp.
  destruct (String.eqb (Scheme u) "rtmp") eqn:Ertmp.
  { (* rtmp *)
    apply String.eqb_eq in Ertmp.
    destruct (net_DialTimeout "tcp" (Host u) (5 * time_Second)) as [k [e|]] eqn:Ed.
    - eexists _, _, _. split; [reflexivity|]. split.
      + split; [discriminate|].
        intros (u' & k' & ? & ? & ? & [= <-] & [[_ Hd]|[Hs _]] & _); congruence.
      + simpl. rewrite Hoff. split; discriminate.
    - destruct (Connect_session_spec (set_conn k c) (mkRuntime (chans r)
                  (logged r ++ [mkLog LvlDebug "connecting to %s" [ArgS (url c)]]) (started r))
                  Hh Hc Hoff) as (c' & err & r' & HS & Hsteps & Hflag).
      exists c', err, r'. split; [exact HS|]. split; [|exact Hflag].
      rewrite Hsteps. split.
      + intros (c1 & c2 & id & H1 & H2). exists u, k, c1, c2, id.
        split; [reflexivity|]. split; [left; split; [exact Ertmp|exact Ed]|].
        split; assumption.
      + intros (u' & k' & c1 & c2 & id & [= <-] & [[_ Hd]|[Hs _]] & H1 & H2);
          [|congruence].
        rewrite Ed in Hd. injection Hd as <-.
        exists c1, c2, id. split; assumption. }
  destruct (String.eqb (Scheme u) "rtmps") eqn:Ertmps.
  { (* rtmps *)
    apply String.eqb_eq in Ertmps. apply String.eqb_neq in Ertmp.
    pose proof (Hdial "tcp" (Host u) (5 * time_Second)) as Hd0.
    destruct (net_DialTimeout "tcp" (Host u) (5 * time_Second)) as [nc [e|]] eqn:Ed.
    - eexists _, _, _. split; [reflexivity|]. split.
      + split; [discriminate|].
        intros (u' & k' & ? & ? & ? & [= <-] & [[Hs _]|[_ (? & ? & Hd & _)]] & _);
          congruence.
      + rewrite Hoff. split; discriminate.
    - destruct nc as [nc|]; [|congruence]. clear Hd0.
      destruct (tls_Handshake (tls_Client nc)) as [tc [e|]] eqn:Et.
      + eexists _, _, _. split; [reflexivity|]. split.
        * split; [discriminate|].
          intros (u' & k' & ? & ? & ? & [= <-] & [[Hs _]|[_ (? & ? & Hd & Ht & _)]] & _);
            [congruence|].
          rewrite Ed in Hd. injection Hd as <-. congruence.
        * rewrite Hoff. split; discriminate.
      + destruct (Connect_session_spec (set_conn (Some tc) c) (mkRuntime (chans r)
                  (logged r ++ [mkLog LvlDebug "connecting to %s" [ArgS (url c)]]) (started r))
                  Hh Hc Hoff) as (c' & err & r' & HS & Hsteps & Hflag).
        exists c', err, r'. split; [exact HS|]. split; [|exact Hflag].
        rewrite Hsteps. split.
        * intros (c1 & c2 & id & H1 & H2). exists u, (Some tc), c1, c2, id.
          split; [reflexivity|].
          split; [right; split; [exact Ertmps|exists nc, tc; auto]|].
          split; assumption.
        * intros (u' & k' & c1 & c2 & id & [= <-]
                  & [[Hs _]|[_ (nc' & tc' & Hd & Ht & ->)]] & H1 & H2);
            [congruence|].
          rewrite Ed in Hd. injection Hd as <-.
          rewrite Et in Ht. injection Ht as <-.
          exists c1, c2, id. split; assumption. }
  (* any other scheme *)
  apply String.eqb_neq in Ertmp. apply String.eqb_neq in Ertmps.
  eexists _, _, _. split; [reflexivity|]. split.
  - split; [discriminate|].
    intros (u' & k' & ? & ? & ? & [= <-] & [[Hs _]|[Hs _]] & _); congruence.
  - rewrite Hoff. split; discriminate.
Qed.

(** ** The router *)

(** C2, as the code has it.  A message on a chunk stream that is neither
    the protocol stream nor the command stream is discarded: the router
    writes one warning to the log and nothing else happens; the receiver,
    the channels and the goroutines are as before. *)
Theorem routeLoop_switch_discards_other_streams
    (msg : Message) (rc : RouterClient) (r : Runtime) :
  ChunkStreamId msg <> CHUNK_STREAM_ID_PROTOCOL ->
  ChunkStreamId msg <> CHUNK_STREAM_ID_COMMAND ->
  routeLoop_switch msg rc r =
    Some (rc, mkRuntime (chans r)
                (logged r ++
                 [mkLog LvlWarn "discarding message on unknown chunk stream %d: +%v"
                    [ArgZ (ChunkStreamId msg); ArgMsg (Some msg)]])
                (started r)) /\
  ~ handed_on msg rc r.
Proof.
  intros Hp Hc.
  assert (Hrun : routeLoop_switch msg rc r =
    Some (rc, mkRuntime (chans r)
                (logged r ++
                 [mkLog LvlWarn "discarding message on unknown chunk stream %d: +%v"
                    [ArgZ (ChunkStreamId msg); ArgMsg (Some msg)]])
                (started r))).
  { unfold routeLoop_switch.
    apply Z.eqb_neq in Hp. apply Z.eqb_neq in Hc. rewrite Hp, Hc. reflexivity. }
  split; [exact Hrun|].
  intros (rc' & r' & Hrun' & Hmore). rewrite Hrun in Hrun'.
  injection Hrun' as <- <-. apply Hmore.
  unfold only_logged. simpl. repeat split; eauto.
Qed.

Lemma routeCommandMessage_client (msg : Message) (rc rc' : RouterClient) (r r' : Runtime) :
  routeCommandMessage msg rc r = Some (rc', r') ->
  rc_client rc' = rc_client rc.
Proof.
  unfold routeCommandMessage.
  destruct (DecodeResult msg (dec rc)) as [[d [res|]] [e|]]; run_go;
    try discriminate; intros [= <- _]; reflexivity.
Qed.

(** What [routeCommandMessage] stores cannot be retrieved: it writes the
    map [results], and [GetResponse] reads the map [responses]. *)
Lemma routeCommandMessage_GetResponse (msg : Message) (rc rc' : RouterClient)
    (r r' : Runtime) (tid : Z) :
  routeCommandMessage msg rc r = Some (rc', r') ->
  GetResponse tid (rc_client rc') = GetResponse tid (rc_client rc).
Proof.
  intros Hroute. rewrite (routeCommandMessage_client _ _ _ _ _ Hroute). reflexivity.
Qed.

(** ** The select loop of Call *)

Lemma Call_select_timeout (tid : Z) (ws : list Wakeup) (c : Client) :
  map_index (responses c) tid = None ->
  In TimedOut ws ->
  Call_select tid ws c = (c, Some (None, Some ErrResponseTimeout)).
Proof.
  intros Hnone. induction ws as [|[|] ws IH]; intros Hin; simpl.
  - destruct Hin.
  - rewrite (GetResponse_absent c tid Hnone). apply IH.
    destruct Hin as [Hbad|Hin]; [discriminate|exact Hin].
  - reflexivity.
Qed.

Lemma Call_select_ready (tid : Z) (ws : list Wakeup) (c : Client) (resp : Response) :
  map_index (responses c) tid = Some resp ->
  Call_select tid (Tick :: ws) c =
    (set_responses (delete tid (responses c)) c, Some (Some resp, None)).
Proof. intros Hget. simpl. rewrite (GetResponse_ready c tid resp Hget). reflexivity. Qed.

End Routing.

(** * Further properties of client.go *)

Lemma uint32_eq_near (x y : Z) :
  uint32 x = uint32 y -> - uint32_modulus < x - y < uint32_modulus -> x = y.
Proof.
  unfold uint32. change uint32_modulus with 4294967296. intros Heq Hnear.
  pose proof (Z.div_mod x 4294967296 ltac:(lia)) as Hx.
  pose proof (Z.div_mod y 4294967296 ltac:(lia)) as Hy.
  rewrite Heq in Hx. lia.
Qed.

Section MoreClient.
Context `{Types}.

(** ** More on transaction ids *)

(** X1.  Up to 2^32 allocations in a row return pairwise different ids,
    from any value of the counter, also across the wrap from 4294967295
    to 0. *)
Theorem allocate_no_repeat_within_period (c : Client) (n : nat) :
  Z.of_nat n <= uint32_modulus ->
  NoDup (fst (allocate n c)).
Proof.
  intros Hn. apply NoDup_alt. intros i j x Hi Hj.
  assert (Hi' : (i < n)%nat).
  { apply lookup_lt_Some in Hi. rewrite allocate_length in Hi. exact Hi. }
  assert (Hj' : (j < n)%nat).
  { apply lookup_lt_Some in Hj. rewrite allocate_length in Hj. exact Hj. }
  rewrite allocate_lookup in Hi by exact Hi'.
  rewrite allocate_lookup in Hj by exact Hj'.
  rewrite <- Hj in Hi. injection Hi as Heq.
  apply uint32_eq_near in Heq; lia.
Qed.

(** X2.  The ids repeat with period 2^32: the id of allocation
    [i + 2^32] is the id of allocation [i]. *)
Theorem allocate_periodic (c : Client) (n i : nat) :
  (i + Z.to_nat uint32_modulus < n)%nat ->
  fst (allocate n c) !! (i + Z.to_nat uint32_modulus)%nat = fst (allocate n c) !! i.
Proof.
  intros Hi. rewrite !allocate_lookup by lia. f_equal.
  rewrite Nat2Z.inj_add, Z2Nat.id by (change uint32_modulus with 4294967296; lia).
  unfold uint32.
  replace (lastTransactionId c + (Z.of_nat i + uint32_modulus) + 1)
    with (lastTransactionId c + Z.of_nat i + 1 + 1 * uint32_modulus) by lia.
  apply Z_mod_plus_full.
Qed.

Lemma set_lastTransactionId_id (c : Client) :
  set_lastTransactionId (lastTransactionId c) c = c.
Proof. destruct c. reflexivity. Qed.

Lemma allocate_snd (n : nat) (c : Client) :
  in_uint32 (lastTransactionId c) ->
  snd (allocate n c) = set_lastTransactionId (uint32 (lastTransactionId c + Z.of_nat n)) c.
Proof.
  revert c. induction n as [|n IH]; intros c Hc.
  - simpl. rewrite Z.add_0_r, uint32_small by exact Hc.
    symmetry. apply set_lastTransactionId_id.
  - simpl.
    pose proof (IH (set_lastTransactionId (uint32 (lastTransactionId c + 1)) c)
                   (uint32_range _)) as IH'.
    destruct (allocate n _) as [vs c2]. simpl in *. rewrite IH'.
    rewrite uint32_add_l. unfold set_lastTransactionId. simpl. f_equal. f_equal. lia.
Qed.

Lemma allocate_app (n m : nat) (c : Client) :
  allocate (n + m) c =
  (fst (allocate n c) ++ fst (allocate m (snd (allocate n c))),
   snd (allocate m (snd (allocate n c)))).
Proof.
  revert c. induction n as [|n IH]; intros c; simpl.
  - destruct (allocate m c). reflexivity.
  - rewrite IH. destruct (allocate n _) as [vs c2]. simpl. reflexivity.
Qed.

(** X3.  [n] allocations change no field of the client but the counter,
    which ends at (start + n) mod 2^32; and [n] allocations followed by
    [m] more return the ids of [n + m] allocations. *)
Theorem allocate_counter_and_composition (c : Client) (n m : nat) :
  in_uint32 (lastTransactionId c) ->
  snd (allocate n c)
  = set_lastTransactionId ((lastTransactionId c + Z.of_nat n) mod 2 ^ 32) c /\
  fst (allocate (n + m) c)
  = fst (allocate n c) ++ fst (allocate m (snd (allocate n c))) /\
  snd (allocate (n + m) c) = snd (allocate m (snd (allocate n c))).
Proof.
  intros Hc. split; [apply allocate_snd, Hc|].
  rewrite allocate_app. split; reflexivity.
Qed.

(** ** More on the pending-response table *)

Lemma map_index_delete_ne {V} (m : gmap Z (option V)) (i k : Z) :
  i <> k -> map_index (delete i m) k = map_index m k.
Proof. intros Hne. unfold map_index. rewrite lookup_delete_ne by exact Hne. reflexivity. Qed.

(** X4.  [GetResponse] touches nothing but the entry it delivers: the
    entries of all other ids and all other fields stay; a delivery makes
    the table one entry smaller and returns what was stored; without a
    delivery the client is unchanged. *)
Theorem GetResponse_frame (c c1 : Client) (tid : Z) (res : option Response) (ready : bool) :
  GetResponse tid c = (c1, res, ready) ->
  (forall k, k <> tid -> responses c1 !! k = responses c !! k) /\
  c1 = set_responses (responses c1) c /\
  res = map_index (responses c) tid /\
  (ready = true ->
   responses c !! tid = Some res /\ res <> None /\
   size (responses c) = S (size (responses c1))) /\
  (ready = false -> res = None /\ c1 = c).
Proof.
  unfold GetResponse. destruct (map_index (responses c) tid) as [resp|] eqn:Hget.
  - intros [= <- <- <-]. simpl.
    apply map_index_Some in Hget.
    split; [intros k Hk; apply lookup_delete_ne; congruence|].
    split; [reflexivity|]. split; [reflexivity|].
    split; [|discriminate]. intros _.
    split; [exact Hget|]. split; [discriminate|].
    rewrite <- (insert_delete_id (responses c) tid (Some resp) Hget) at 1.
    apply map_size_insert_None, lookup_delete_eq.
  - intros [= <- <- <-].
    split; [reflexivity|].
    split; [destruct c; reflexivity|]. split; [reflexivity|].
    split; [discriminate|]. intros _. split; reflexivity.
Qed.

(** X5.  Retrievals for two different ids do not interfere: either order
    gives the same two results and the same client. *)
Theorem GetResponse_commute (c : Client) (a b : Z) :
  a <> b ->
  snd (fst (GetResponse b (fst (fst (GetResponse a c))))) = snd (fst (GetResponse b c)) /\
  snd (GetResponse b (fst (fst (GetResponse a c)))) = snd (GetResponse b c) /\
  snd (fst (GetResponse a (fst (fst (GetResponse b c))))) = snd (fst (GetResponse a c)) /\
  snd (GetResponse a (fst (fst (GetResponse b c)))) = snd (GetResponse a c) /\
  fst (fst (GetResponse b (fst (fst (GetResponse a c)))))
  = fst (fst (GetResponse a (fst (fst (GetResponse b c))))).
Proof.
  intros Hne. unfold GetResponse.
  destruct (map_index (responses c) a) as [ra|] eqn:Ha;
    destruct (map_index (responses c) b) as [rb|] eqn:Hb; simpl;
    rewrite ?map_index_delete_ne, ?Ha, ?Hb by congruence; simpl;
    repeat split; try reflexivity.
  unfold set_responses. simpl. f_equal. apply delete_delete.
Qed.

(** ** External handlers *)


End MoreClient.

Section MoreLifecycle.
Context `{Types}.

(** ** More on Reset and Disconnect *)

Lemma guarded_close_Some_open (ch : option nat) (r r' : Runtime) (u : unit) :
  (match ch with Some _ => close ch | None => ret tt end) r = Some (u, r') ->
  open_or_nil r ch.
Proof.
  destruct ch as [a|]; simpl; [|intros _; exact I].
  unfold close. destruct (chans r !! a) as [[cl q]|]; [|discriminate].
  simpl. destruct cl; [discriminate|]. intros _. exists q. reflexivity.
Qed.

Lemma Reset_Some_queues_open (c c' : Client) (r r' : Runtime) :
  Reset c r = Some (c', r') -> queues_open c r.
Proof.
  unfold Reset, bind. intros HR.
  destruct ((match outMessages c with Some _ => close (outMessages c) | None => ret tt end) r)
    as [[u1 r1]|] eqn:E1; [|discriminate].
  destruct ((match inMessages c with Some _ => close (inMessages c) | None => ret tt end) r1)
    as [[u2 r2]|] eqn:E2; [|discriminate].
  clear HR.
  pose proof (guarded_close_Some_open _ _ _ _ E1) as Hout.
  pose proof (guarded_close_Some_open _ _ _ _ E2) as Hin1.
  apply guarded_close_inv in E1 as (_ & _ & _ & Hc1 & Hsame & _).
  assert (Hne : forall a, outMessages c = Some a -> inMessages c <> Some a).
  { intros a Ho Hi. rewrite Ho in Hc1. rewrite Hi in Hin1. simpl in *.
    destruct Hc1 as [q Hq]. destruct Hin1 as [q' Hq']. congruence. }
  split; [exact Hout|]. split; [|exact Hne].
  destruct (inMessages c) as [b|] eqn:Eb; simpl in *; [|exact I].
  destruct Hin1 as [q Hq]. exists q. rewrite <- Hsame; [exact Hq|].
  intros Ho. apply (Hne b Ho). reflexivity.
Qed.

Lemma Disconnect_inv (c c' : Client) (r r' : Runtime) :
  Disconnect c r = Some (c', r') ->
  exists r1, Reset c r = Some (c', r1) /\ chans r' = chans r1 /\
             started r' = started r1 /\
             logged r' = logged r1 ++ [mkLog LvlDebug "disconnected from %s" [ArgS (url c')]].
Proof.
  rewrite Disconnect_unfold. destruct (Reset c r) as [[c1 r1]|]; [|discriminate].
  intros [= <- <-]. exists r1. repeat split.
Qed.

(** X7.  [Reset] and [Disconnect] succeed exactly on a session whose
    queues are nil or open and are two different channels; on any other
    session (a queue already closed, or one channel in both fields)
    they panic in close. *)
Theorem Reset_succeeds_iff_queues_open (c : Client) (r : Runtime) :
  (is_Some (Reset c r) <-> queues_open c r) /\
  (is_Some (Disconnect c r) <-> queues_open c r).
Proof.
  assert (HR : is_Some (Reset c r) <-> queues_open c r).
  { split.
    - intros [[c' r'] HR]. eapply Reset_Some_queues_open, HR.
    - intros Hq. destruct (Reset_total _ _ Hq) as (c' & r' & HR). eexists. exact HR. }
  split; [exact HR|]. rewrite <- HR, Disconnect_unfold.
  destruct (Reset c r) as [[c1 r1]|]; split; intros [x Hx]; try discriminate; eexists; reflexivity.
Qed.

(** X8.  [Reset] and [Disconnect] leave the URL, the channel inNotify and
    the registered external handlers as they were: a handler registered
    before is still found under its name afterwards. *)
Theorem handlers_survive_Reset (c c' : Client) (r r' : Runtime)
    (name : string) (fn : ExternalHandler) :
  Reset (RegisterExternalHandler name fn c) r = Some (c', r') \/
  Disconnect (RegisterExternalHandler name fn c) r = Some (c', r') ->
  amfExternalHandlers c' !! name = Some fn /\
  (forall other, other <> name ->
     amfExternalHandlers c' !! other = amfExternalHandlers c !! other) /\
  url c' = url c /\ inNotify c' = inNotify c.
Proof.
  intros Hrun.
  assert (HR : exists r1, Reset (RegisterExternalHandler name fn c) r = Some (c', r1)).
  { destruct Hrun as [HR|HD]; [eexists; exact HR|].
    apply Disconnect_inv in HD as (r1 & HR & _). eexists; exact HR. }
  destruct HR as (r1 & HR). apply Reset_inv in HR as (-> & _). simpl.
  split; [apply lookup_insert_eq|].
  split; [intros other Hne; apply lookup_insert_ne; congruence|].
  split; reflexivity.
Qed.

(** X9.  [Reset] writes nothing to the log, starts no goroutine and
    leaves every channel other than the two queues of the session as it
    was; the two queues it installs are channels that did not exist
    before. *)
Theorem Reset_touches_only_its_queues (c c' : Client) (r r' : Runtime) :
  Reset c r = Some (c', r') ->
  logged r' = logged r /\ started r' = started r /\
  (forall b, outMessages c <> Some b -> inMessages c <> Some b ->
             (b < length (chans r))%nat -> chans r' !! b = chans r !! b) /\
  (exists a a', outMessages c' = Some a /\ inMessages c' = Some a' /\ a <> a' /\
                chans r !! a = None /\ chans r !! a' = None /\
                chans r' !! a = Some (mkChan false []) /\
                chans r' !! a' = Some (mkChan false [])).
Proof.
  intros HR. pose proof (Reset_inv _ _ _ _ HR) as (-> & Hl & Hs & Hn & Hf1 & Hf2 & _ & _).
  split; [exact Hl|]. split; [exact Hs|]. split.
  - intros b Hbo Hbi Hb. revert HR. unfold Reset, bind.
    destruct ((match outMessages c with Some _ => close (outMessages c) | None => ret tt end) r)
      as [[u1 r1]|] eqn:E1; [|discriminate].
    destruct ((match inMessages c with Some _ => close (inMessages c) | None => ret tt end) r1)
      as [[u2 r2]|] eqn:E2; [|discriminate].
    apply guarded_close_inv in E1 as (_ & _ & Hn1 & _ & Hsame1 & _).
    apply guarded_close_inv in E2 as (_ & _ & Hn2 & _ & Hsame2 & _).
    unfold make_chan, ret. simpl. intros HR.
    apply (f_equal (fun x => snd <$> x)) in HR. simpl in HR. injection HR as <-. simpl.
    rewrite lookup_app_l by (rewrite length_app; simpl; lia).
    rewrite lookup_app_l by lia.
    rewrite Hsame2 by exact Hbi. apply Hsame1, Hbo.
  - exists (length (chans r)), (S (length (chans r))). simpl.
    split; [reflexivity|]. split; [reflexivity|]. split; [lia|].
    split; [apply lookup_ge_None; lia|]. split; [apply lookup_ge_None; lia|].
    split; assumption.
Qed.

(** ** More on Read and Write *)


Lemma Reads_inv (ps : list (list byte)) (c c' : Client) (r r' : Runtime) (ns : list Z) :
  in_uint32 (inBytes c) ->
  Reads ps c r = Some (c', ns, r') ->
  length ns = length ps /\
  inBytes c' = uint32 (inBytes c + sum_Z ns) /\
  outBytes c' = outBytes c.
Proof.
  revert c r ns. induction ps as [|p ps IH]; intros c r ns Hc; simpl.
  - unfold ret. intros [= <- <- <-]. simpl. rewrite Z.add_0_r, uint32_small by exact Hc.
    repeat split.
  - unfold bind at 1. unfold Read at 1.
    destruct (conn c) as [k|]; [|discriminate].
    destruct (conn_Read k p) as [[[k' p'] n] err].
    unfold bind at 1. unfold log_call at 1. simpl.
    unfold bind at 1.
    destruct (Reads ps _ _) as [[[c2 ns'] r2]|] eqn:E; [|discriminate].
    unfold ret. intros [= <- <- <-].
    apply IH in E as (Hlen & Hin & Hout); [|apply uint32_range]. simpl in *.
    split; [congruence|]. split; [|exact Hout].
    rewrite Hin, uint32_add_r, uint32_add_l. f_equal. lia.
Qed.

Lemma Writes_inv (ps : list (list byte)) (c c' : Client) (r r' : Runtime) (ns : list Z) :
  in_uint32 (outBytes c) ->
  Writes ps c r = Some (c', ns, r') ->
  length ns = length ps /\
  outBytes c' = uint32 (outBytes c + sum_Z ns) /\
  inBytes c' = inBytes c.
Proof.
  revert c r ns. induction ps as [|p ps IH]; intros c r ns Hc; simpl.
  - unfold ret. intros [= <- <- <-]. simpl. rewrite Z.add_0_r, uint32_small by exact Hc.
    repeat split.
  - unfold bind at 1. unfold Write at 1.
    destruct (conn c) as [k|]; [|discriminate].
    destruct (conn_Write k p) as [[k' n] err].
    unfold bind at 1. unfold log_call at 1. simpl.
    unfold bind at 1.
    destruct (Writes ps _ _) as [[[c2 ns'] r2]|] eqn:E; [|discriminate].
    unfold ret. intros [= <- <- <-].
    apply IH in E as (Hlen & Hin & Hout); [|apply uint32_range]. simpl in *.
    split; [congruence|]. split; [|exact Hout].
    rewrite Hin, uint32_add_r, uint32_add_l. f_equal. lia.
Qed.

Lemma Reads_total (ps : list (list byte)) (c : Client) (r : Runtime) :
  conn c <> None -> is_Some (Reads ps c r).
Proof.
  revert c r. induction ps as [|p ps IH]; intros c r Hc; simpl.
  - eexists. reflexivity.
  - unfold bind at 1. unfold Read at 1.
    destruct (conn c) as [k|]; [|congruence].
    destruct (conn_Read k p) as [[[k' p'] n] err].
    unfold bind at 1. unfold log_call at 1. simpl. unfold bind at 1.
    edestruct (IH (set_inBytes (uint32 (inBytes c + uint32 n)) (set_conn (Some k') c)))
      as [[[c2 ns'] r2] E]; [simpl; discriminate|].
    rewrite E. eexists. reflexivity.
Qed.

Lemma Writes_total (ps : list (list byte)) (c : Client) (r : Runtime) :
  conn c <> None -> is_Some (Writes ps c r).
Proof.
  revert c r. induction ps as [|p ps IH]; intros c r Hc; simpl.
  - eexists. reflexivity.
  - unfold bind at 1. unfold Write at 1.
    destruct (conn c) as [k|]; [|congruence].
    destruct (conn_Write k p) as [[k' n] err].
    unfold bind at 1. unfold log_call at 1. simpl. unfold bind at 1.
    edestruct (IH (set_outBytes (uint32 (outBytes c + uint32 n)) (set_conn (Some k') c)))
      as [[[c2 ns'] r2] E]; [simpl; discriminate|].
    rewrite E. eexists. reflexivity.
Qed.

(** X11.  On a client with a transport, any number of [Read]s in a row
    succeeds and leaves inBytes at (inBytes + the sum of the byte counts
    returned) mod 2^32, with outBytes untouched; the same holds for
    [Write]s and outBytes. *)
Theorem Reads_Writes_accumulate (ps : list (list byte)) (c : Client) (r : Runtime) :
  conn c <> None ->
  in_uint32 (inBytes c) ->
  in_uint32 (outBytes c) ->
  (exists c' ns r',
      Reads ps c r = Some (c', ns, r') /\ length ns = length ps /\
      inBytes c' = (inBytes c + sum_Z ns) mod 2 ^ 32 /\
      outBytes c' = outBytes c) /\
  (exists c' ns r',
      Writes ps c r = Some (c', ns, r') /\ length ns = length ps /\
      outBytes c' = (outBytes c + sum_Z ns) mod 2 ^ 32 /\
      inBytes c' = inBytes c).
Proof.
  intros Hconn Hin Hout. split.
  - destruct (Reads_total ps c r Hconn) as [[[c' ns] r'] E].
    exists c', ns, r'. split; [exact E|]. apply (Reads_inv _ _ _ _ _ _ Hin E).
  - destruct (Writes_total ps c r Hconn) as [[[c' ns] r'] E].
    exists c', ns, r'. split; [exact E|]. apply (Writes_inv _ _ _ _ _ _ Hout E).
Qed.

(** ** Sequences of calls *)

Lemma queues_open_ext (c c' : Client) (r r' : Runtime) :
  outMessages c' = outMessages c -> inMessages c' = inMessages c ->
  chans r' = chans r -> queues_open c r -> queues_open c' r'.
Proof.
  intros Ho Hi Hc. unfold queues_open, open_or_nil. rewrite Ho, Hi, Hc. tauto.
Qed.




End MoreLifecycle.

Section MoreRouting.
Context `{Types} `{!Methods}.

(** ** More on Connect *)

Ltac run_go := unfold bind, ret, log_call, go; simpl.



(** X14.  Failures of [Connect] before the handshake.  An error of
    url.Parse, of the dial or of the TLS handshake is returned as it is,
    and a scheme other than rtmp and rtmps gives the error
    "Unsupported scheme"; in each case one debug line is logged and
    nothing is started.  The client is unchanged, except that a failed
    dial for rtmp has already overwritten [conn] with what the dial
    returned. *)
Theorem Connect_fails_before_handshake (c : Client) (r : Runtime) :
  let r1 := mkRuntime (chans r)
              (logged r ++ [mkLog LvlDebug "connecting to %s" [ArgS (url c)]])
              (started r) in
  (forall ou e, url_Parse (url c) = (ou, Some e) -> Connect c r = Some (c, Some e, r1)) /\
  (forall u, url_Parse (url c) = (Some u, None) ->
             Scheme u <> "rtmp" -> Scheme u <> "rtmps" ->
             Connect c r = Some (c, Some (ErrorS "Unsupported scheme: %s" (Scheme u)), r1)) /\
  (forall u k e, url_Parse (url c) = (Some u, None) ->
                 Scheme u = "rtmp" ->
                 net_DialTimeout "tcp" (Host u) (5 * time_Second) = (k, Some e) ->
                 Connect c r = Some (set_conn k c, Some e, r1)) /\
  (forall u e, url_Parse (url c) = (Some u, None) ->
               Scheme u = "rtmps" ->
               (exists nc, net_DialTimeout "tcp" (Host u) (5 * time_Second) = (nc, Some e)) \/
               (exists k tc, net_DialTimeout "tcp" (Host u) (5 * time_Second) = (Some k, None) /\
                             tls_Handshake (tls_Client k) = (tc, Some e)) ->
               Connect c r = Some (c, Some e, r1)).
Proof.
  intros r1. unfold Connect. run_go. split; [|split; [|split]].
  - intros ou e ->. destruct ou; reflexivity.
  - intros u -> H1 H2. apply String.eqb_neq in H1, H2. rewrite H1, H2. reflexivity.
  - intros u k e -> Hs Hd. apply String.eqb_eq in Hs. rewrite Hs, Hd. reflexivity.
  - intros u e -> Hs Hfail.
    assert (Hn : String.eqb (Scheme u) "rtmp" = false) by (rewrite Hs; reflexivity).
    apply String.eqb_eq in Hs. rewrite Hn, Hs.
    destruct Hfail as [[nc Hd]|(k & tc & Hd & Ht)]; rewrite Hd.
    + reflexivity.
    + rewrite Ht. reflexivity.
Qed.

(** ** More on the router *)




(** ** More on the select loop of Call *)

(** X17.  The select loop of [Call], on a given sequence of wake-ups and
    with no other goroutine writing the table.  Without a stored response
    for the id it changes nothing and returns (nil, ErrResponseTimeout)
    if there is a timeout among the wake-ups, and is still waiting if
    not.  With a stored response the first wake-up decides: a tick
    returns the response and deletes its entry; a timeout returns the
    timeout error and the response stays in the table. *)
Theorem Call_select_outcome (tid : Z) (ws : list Wakeup) (c : Client) :
  (map_index (responses c) tid = None ->
   (In TimedOut ws ->
    Call_select tid ws c = (c, Some (None, Some ErrResponseTimeout))) /\
   (~ In TimedOut ws -> Call_select tid ws c = (c, None))) /\
  (forall resp,
      map_index (responses c) tid = Some resp ->
      Call_select tid ws c =
        match ws with
        | [] => (c, None)
        | Tick :: _ =>
          (set_responses (delete tid (responses c)) c, Some (Some resp, None))
        | TimedOut :: _ => (c, Some (None, Some ErrResponseTimeout))
        end).
Proof.
  split.
  - intros Hnone. split.
    + induction ws as [|[|] ws IH]; intros Hin; simpl.
      * destruct Hin.
      * rewrite (GetResponse_absent c tid Hnone). apply IH.
        destruct Hin as [Hbad|Hin]; [discriminate|exact Hin].
      * reflexivity.
    + induction ws as [|[|] ws IH]; intros Hin; simpl.
      * reflexivity.
      * rewrite (GetResponse_absent c tid Hnone). apply IH.
        intros Hin'. apply Hin. right. exact Hin'.
      * exfalso. apply Hin. left. reflexivity.
  - intros resp Hget. destruct ws as [|[|] ws]; simpl; try reflexivity.
    rewrite (GetResponse_ready c tid resp Hget). reflexivity.
Qed.

End MoreRouting.

(** ** The definitions run on the sample *)

Import Sample.

(** C2, as the spec has it, fails: the message on chunk stream 5 is not
    handed on. *)
Lemma routeLoop_switch_no_hand_off :
  ChunkStreamId Sample.media5 <> CHUNK_STREAM_ID_PROTOCOL /\
  ChunkStreamId Sample.media5 <> CHUNK_STREAM_ID_COMMAND /\
  ~ handed_on Sample.media5 Sample.router0 Sample.runtime1.
Proof.
  split; [discriminate|]. split; [discriminate|].
  intros (rc' & r' & Hrun & Hmore).
  vm_compute in Hrun. injection Hrun as <- <-. apply Hmore.
  unfold only_logged. simpl. repeat split. eexists. reflexivity.
Qed.

(** C1 on the code: the command message that decodes to transaction id 7
    is routed without error, the result is stored under 7 in [results],
    the struct of client.go is as before, and the retrieval for id 7
    reports not ready. *)
Theorem routeCommandMessage_result_not_retrievable :
  exists rc' r',
    routeLoop_switch Sample.command7 Sample.router0 Sample.runtime1 = Some (rc', r') /\
    results rc' !! 7 = Some (Some (Sample.mkReply 7 "_result")) /\
    rc_client rc' = Sample.client0 /\
    responses (rc_client rc') !! 7 = None /\
    GetResponse 7 (rc_client rc') = (rc_client rc', None, false).
Proof.
  exists (mkRouterClient client0 1%nat (<[7 := Some (mkReply 7 "_result")]> ∅)), runtime1.
  split; [vm_compute; reflexivity|].
  split; [vm_compute; reflexivity|].
  split; [reflexivity|]. split; vm_compute; reflexivity.
Qed.

(** ** The theorems at the sample *)

Lemma GetResponse_single_delivery_witness :
  responses live !! 7 = Some (Some reply7) /\
  exists c1 : Client,
    GetResponse 7 live = (c1, Some reply7, true) /\
    responses c1 = delete 7 (responses live) /\
    responses c1 !! 7 = None /\
    GetResponse 7 c1 = (c1, None, false).
Proof.
  split; [vm_compute; reflexivity|].
  apply (proj1 (GetResponse_single_delivery live 7)). vm_compute; reflexivity.
Defined.

Lemma GetResponse_not_ready_unchanged_witness :
  map_index (responses live) 8 = None /\
  exists c1 : Client,
    GetResponse 8 live = (c1, None, false) /\
    c1 = live /\
    (forall k : Z, responses c1 !! k = responses live !! k).
Proof.
  split; [vm_compute; reflexivity|].
  apply (GetResponse_not_ready_unchanged live 8). vm_compute; reflexivity.
Defined.

Lemma allocate_increasing_until_wrap_witness :
  in_uint32 (lastTransactionId (counter_at 4294967290)) /\
  lastTransactionId (counter_at 4294967290) + Z.of_nat 5 < uint32_modulus /\
  length (fst (allocate 5 (counter_at 4294967290))) = 5%nat /\
  (forall i : nat, (i < 5)%nat ->
     fst (allocate 5 (counter_at 4294967290)) !! i
     = Some (lastTransactionId (counter_at 4294967290) + Z.of_nat i + 1)) /\
  strictly_increasing (fst (allocate 5 (counter_at 4294967290))) /\
  NoDup (fst (allocate 5 (counter_at 4294967290))).
Proof.
  assert (Hrange : in_uint32 (lastTransactionId (counter_at 4294967290))).
  { unfold in_uint32. vm_compute. split; [discriminate|reflexivity]. }
  assert (Hbound : lastTransactionId (counter_at 4294967290) + Z.of_nat 5 < uint32_modulus).
  { vm_compute. reflexivity. }
  split; [exact Hrange|]. split; [exact Hbound|].
  exact (allocate_increasing_until_wrap (counter_at 4294967290) 5 Hrange Hbound).
Defined.

Lemma Read_Write_count_bytes_witness :
  conn live = Some wire3 /\
  (exists c' r',
      Read [x00; x00] live runtime_live
      = Some (c', [x01; x02], 2, None, r') /\
      inBytes c' = (inBytes live + 2) mod 2 ^ 32 /\
      outBytes c' = outBytes live /\
      conn c' = Some (mkWire false [x03] [x03])) /\
  (exists c' r',
      Write [x0a; x0b] live runtime_live = Some (c', 2, None, r') /\
      outBytes c' = (outBytes live + 2) mod 2 ^ 32 /\
      inBytes c' = inBytes live /\
      conn c' = Some (mkWire false [x01; x02; x03] [x03; x0a; x0b])).
Proof.
  split; [reflexivity|]. split.
  - apply (proj1 (Read_Write_count_bytes live wire3 [x00; x00] runtime_live eq_refl)).
    vm_compute; reflexivity.
  - apply (proj2 (Read_Write_count_bytes live wire3 [x0a; x0b] runtime_live eq_refl)).
    vm_compute; reflexivity.
Defined.

Example Read_wraps_inBytes :
  exists c' r', Read [x00; x00] live runtime_live = Some (c', [x01; x02], 2, None, r') /\
                inBytes live = 4294967295 /\ inBytes c' = 1.
Proof. eexists _, _. split; [vm_compute; reflexivity|]. split; reflexivity. Qed.

Lemma wire_Close_idempotent :
  forall k : Wire, fst (wire_Close (fst (wire_Close k))) = fst (wire_Close k).
Proof. intros k. reflexivity. Qed.

Lemma live_queues_open : queues_open live runtime_live.
Proof.
  unfold queues_open. simpl. split; [eexists; reflexivity|].
  split; [eexists; reflexivity|]. intros a [= <-]. discriminate.
Qed.

Lemma client0_closed_session : closed_session client0 runtime1.
Proof.
  unfold closed_session, cleared, queues_open. simpl.
  repeat split; try reflexivity; try (eexists; reflexivity); try discriminate.
  intros a [= <-]. discriminate.
Qed.

Lemma Reset_Disconnect_close_and_clear_witness :
  (forall k : Wire, fst (wire_Close (fst (wire_Close k))) = fst (wire_Close k)) /\
  queues_open live runtime_live /\
  closed_session client0 runtime1 /\
  (exists c1 r1 r1',
     Reset live runtime_live = Some (c1, r1) /\
     Disconnect live runtime_live = Some (c1, r1') /\
     chans r1' = chans r1 /\
     conn c1 = (fun k => fst (conn_Close k)) <$> conn live /\
     is_closed r1 (outMessages live) /\
     is_closed r1 (inMessages live) /\
     closed_session c1 r1 /\
     closed_session c1 r1') /\
  (exists c2 r2 r2',
     Reset client0 runtime1 = Some (c2, r2) /\
     Disconnect client0 runtime1 = Some (c2, r2') /\
     observe c2 r2 = observe client0 runtime1 /\
     observe c2 r2' = observe client0 runtime1 /\
     closed_session c2 r2 /\
     closed_session c2 r2').
Proof.
  split; [exact wire_Close_idempotent|].
  split; [exact live_queues_open|].
  split; [exact client0_closed_session|].
  split.
  - exact (proj1 (Reset_Disconnect_close_and_clear live runtime_live wire_Close_idempotent)
             live_queues_open).
  - exact (proj2 (Reset_Disconnect_close_and_clear client0 runtime1 wire_Close_idempotent)
             client0_closed_session).
Defined.

Example Reset_live :
  Reset live runtime_live =
  Some (mkClient "rtmp://example/app" false (Some (mkWire true [x01; x02; x03] [x03]))
          0 (Some 2%nat) 2500000 128 ∅ 0 (Some 3%nat) None 2500000 128 ∅ ∅ 0 "" ∅,
        mkRuntime [mkChan true [command7]; mkChan true []; mkChan false []; mkChan false []]
          [] [go_receiveLoop; go_sendLoop; go_routeLoop]).
Proof. vm_compute. reflexivity. Qed.

Lemma Reset_restarts_transaction_ids_witness :
  queues_open live runtime_live /\
  lastTransactionId live = 7 /\
  exists c' r', Reset live runtime_live = Some (c', r') /\
                lastTransactionId c' = 0 /\ fst (NextTransactionId c') = 1.
Proof.
  split; [exact live_queues_open|]. split; [reflexivity|].
  exact (proj1 (proj2 Reset_restarts_transaction_ids) live runtime_live live_queues_open).
Defined.

Lemma sample_handshake_connected :
  forall x : Client, connected (fst (handshake x)) = connected x.
Proof.
  intros x. simpl. unfold sample_handshake.
  destruct (conn x) as [k|]; [destruct (closed k)|]; reflexivity.
Qed.

Lemma sample_connect_connected :
  forall x : Client, connected (fst (fst (connect x))) = connected x.
Proof.
  intros x. simpl. unfold sample_connect.
  destruct (String.eqb (url x) "rtmp://refuse"); reflexivity.
Qed.

Lemma parse_value_or_error : forall s : string, url_Parse s <> (None, None).
Proof.
  intros s. simpl. unfold parse.
  destruct (String.prefix "rtmp://" s); [discriminate|].
  destruct (String.prefix "rtmps://" s); [discriminate|].
  destruct (String.prefix "http://" s); discriminate.
Qed.

Lemma dial_value_or_error :
  forall (a b : string) (t : Z), net_DialTimeout a b t <> (None, None).
Proof.
  intros a b t. simpl. unfold dial. destruct (String.eqb b ""); discriminate.
Qed.

Lemma Connect_connected_only_on_success_witness :
  connected client0 = false /\
  exists c' err r',
    Connect client0 runtime1 = Some (c', err, r') /\
    (err = None <-> connect_steps_succeed client0) /\
    (connected c' = true <-> err = None) /\
    (err <> None -> connected c' = false).
Proof.
  split; [reflexivity|].
  exact (Connect_connected_only_on_success client0 runtime1
           sample_handshake_connected sample_connect_connected
           parse_value_or_error dial_value_or_error eq_refl).
Defined.

Example Connect_succeeds :
  exists c' r', Connect client0 runtime1 = Some (c', None, r') /\
                connected c' = true /\ connectionId c' = "conn-1" /\
                started r' = [go_receiveLoop; go_sendLoop; go_routeLoop].
Proof. eexists _, _. split; [vm_compute; reflexivity|]. repeat split. Qed.

Example Connect_refused :
  exists c' e r', Connect (mkClient "rtmp://refuse" false None 0 (Some 0%nat) 2500000 128 ∅
                             0 (Some 1%nat) None 2500000 128 ∅ ∅ 0 "" ∅) runtime1
                  = Some (c', Some e, r') /\
                  e = ErrorE "client connect: could not complete connect: %s" ErrResponseTimeout /\
                  connected c' = false.
Proof. eexists _, _, _. split; [vm_compute; reflexivity|]. split; reflexivity. Qed.

Example Connect_unsupported_scheme :
  exists c' r', Connect (mkClient "http://example" false None 0 (Some 0%nat) 2500000 128 ∅
                           0 (Some 1%nat) None 2500000 128 ∅ ∅ 0 "" ∅) runtime1
                = Some (c', Some (ErrorS "Unsupported scheme: %s" "http"), r') /\
                connected c' = false.
Proof. eexists _, _. split; [vm_compute; reflexivity|]. reflexivity. Qed.

Lemma routeLoop_switch_discards_other_streams_witness :
  ChunkStreamId media5 <> CHUNK_STREAM_ID_PROTOCOL /\
  ChunkStreamId media5 <> CHUNK_STREAM_ID_COMMAND /\
  routeLoop_switch media5 router0 runtime1 =
    Some (router0,
          mkRuntime (chans runtime1)
            (logged runtime1 ++
             [mkLog LvlWarn "discarding message on unknown chunk stream %d: +%v"
                [ArgZ (ChunkStreamId media5); ArgMsg (Some media5)]])
            (started runtime1)) /\
  ~ handed_on media5 router0 runtime1.
Proof.
  assert (Hp : ChunkStreamId media5 <> CHUNK_STREAM_ID_PROTOCOL) by (vm_compute; discriminate).
  assert (Hc : ChunkStreamId media5 <> CHUNK_STREAM_ID_COMMAND) by (vm_compute; discriminate).
  split; [exact Hp|]. split; [exact Hc|].
  exact (routeLoop_switch_discards_other_streams media5 router0 runtime1 Hp Hc).
Defined.

(** The router run on a queue: the command message, then the message on
    chunk stream 5, then the closed queue. *)
Example routeLoop_run :
  exists rc' r',
    routeLoop 3 router0 (mkRuntime [mkChan false []; mkChan true [command7; media5]] [] [])
    = Some (Exited, rc', r') /\
    results rc' !! 7 = Some (Some reply7) /\
    rc_client rc' = client0 /\
    map (fun e => lg_level e) (logged r') = [LvlTrace; LvlTrace; LvlWarn; LvlTrace; LvlTrace].
Proof.
  eexists (mkRouterClient client0 1%nat (<[7 := Some reply7]> ∅)), _.
  split; [vm_compute; reflexivity|].
  split; [vm_compute; reflexivity|]. split; reflexivity.
Qed.

(** [Connect] never clears the flag: called on a session that is still
    connected, a failed dial returns the error, leaves connected = true
    and has already put nil in [conn]. *)
Example Connect_again_without_Reset :
  exists c' e r',
    Connect (mkClient "rtmp://" true (Some wire3) 0 (Some 0%nat) 2500000 128 ∅
               0 (Some 1%nat) None 2500000 128 ∅ ∅ 0 "conn-1" ∅) runtime1
    = Some (c', Some e, r') /\
    connected c' = true /\ conn c' = None.
Proof. eexists _, _, _. split; [vm_compute; reflexivity|]. split; reflexivity. Qed.

(** ** The further properties at the sample *)

Lemma allocate_no_repeat_within_period_witness :
  Z.of_nat 3 <= uint32_modulus /\
  fst (allocate 3 (counter_at 4294967294)) = [4294967295; 0; 1] /\
  NoDup (fst (allocate 3 (counter_at 4294967294))).
Proof.
  assert (Hn : Z.of_nat 3 <= uint32_modulus) by (vm_compute; discriminate).
  split; [exact Hn|]. split; [reflexivity|].
  exact (allocate_no_repeat_within_period (counter_at 4294967294) 3 Hn).
Defined.

Lemma allocate_periodic_witness :
  (1 + Z.to_nat uint32_modulus < Z.to_nat 4294967298)%nat /\
  fst (allocate (Z.to_nat 4294967298) client0) !! (1 + Z.to_nat uint32_modulus)%nat
  = fst (allocate (Z.to_nat 4294967298) client0) !! 1%nat.
Proof.
  assert (Hi : (1 + Z.to_nat uint32_modulus < Z.to_nat 4294967298)%nat).
  { change uint32_modulus with 4294967296. lia. }
  split; [exact Hi|].
  exact (allocate_periodic client0 (Z.to_nat 4294967298) 1 Hi).
Defined.

Lemma allocate_counter_and_composition_witness :
  in_uint32 (lastTransactionId (counter_at 4294967294)) /\
  snd (allocate 3 (counter_at 4294967294))
  = set_lastTransactionId ((lastTransactionId (counter_at 4294967294) + Z.of_nat 3) mod 2 ^ 32)
      (counter_at 4294967294) /\
  fst (allocate (3 + 2) (counter_at 4294967294))
  = fst (allocate 3 (counter_at 4294967294))
    ++ fst (allocate 2 (snd (allocate 3 (counter_at 4294967294)))) /\
  snd (allocate (3 + 2) (counter_at 4294967294))
  = snd (allocate 2 (snd (allocate 3 (counter_at 4294967294)))).
Proof.
  assert (Hc : in_uint32 (lastTransactionId (counter_at 4294967294))).
  { unfold in_uint32. vm_compute. split; [discriminate|reflexivity]. }
  split; [exact Hc|].
  exact (allocate_counter_and_composition (counter_at 4294967294) 3 2 Hc).
Defined.

Lemma GetResponse_frame_witness :
  GetResponse 7 live = (set_responses ∅ live, Some reply7, true) /\
  (forall k, k <> 7 -> responses (set_responses ∅ live) !! k = responses live !! k) /\
  set_responses ∅ live = set_responses (responses (set_responses ∅ live)) live /\
  Some reply7 = map_index (responses live) 7 /\
  (true = true ->
   responses live !! 7 = Some (Some reply7) /\ Some reply7 <> None /\
   size (responses live) = S (size (responses (set_responses ∅ live)))) /\
  (true = false -> Some reply7 = None /\ set_responses ∅ live = live).
Proof.
  assert (Hrun : GetResponse 7 live = (set_responses ∅ live, Some reply7, true)).
  { vm_compute. reflexivity. }
  split; [exact Hrun|].
  exact (GetResponse_frame live (set_responses ∅ live) 7 (Some reply7) true Hrun).
Defined.

Lemma GetResponse_commute_witness :
  (7 : Z) <> 8 /\
  snd (fst (GetResponse 8 (fst (fst (GetResponse 7 live))))) = snd (fst (GetResponse 8 live)) /\
  snd (GetResponse 8 (fst (fst (GetResponse 7 live)))) = snd (GetResponse 8 live) /\
  snd (fst (GetResponse 7 (fst (fst (GetResponse 8 live))))) = snd (fst (GetResponse 7 live)) /\
  snd (GetResponse 7 (fst (fst (GetResponse 8 live)))) = snd (GetResponse 7 live) /\
  fst (fst (GetResponse 8 (fst (fst (GetResponse 7 live)))))
  = fst (fst (GetResponse 7 (fst (fst (GetResponse 8 live))))).
Proof.
  assert (Hne : (7 : Z) <> 8) by discriminate.
  split; [exact Hne|]. exact (GetResponse_commute live 7 8 Hne).
Defined.

(** [Reset] on a session whose outbound queue is already closed. *)
Example Reset_on_closed_queue_panics :
  Reset client0 (mkRuntime [mkChan true []; mkChan false []] [] []) = None /\
  Disconnect client0 (mkRuntime [mkChan true []; mkChan false []] [] []) = None.
Proof. split; reflexivity. Qed.

Lemma handlers_survive_Reset_witness :
  Disconnect (@RegisterExternalHandler types "DSK" tt live) runtime_live
  = Some (set_amfExternalHandlers (<["DSK" := tt]> ∅) live_reset,
          mkRuntime (chans runtime_live_reset)
            [mkLog LvlDebug "disconnected from %s" [ArgS "rtmp://example/app"]]
            (started runtime_live_reset)) /\
  amfExternalHandlers (set_amfExternalHandlers (<["DSK" := tt]> ∅) live_reset) !! "DSK"
  = Some tt /\
  (forall other, other <> "DSK" ->
     amfExternalHandlers (set_amfExternalHandlers (<["DSK" := tt]> ∅) live_reset) !! other
     = amfExternalHandlers live !! other) /\
  url (set_amfExternalHandlers (<["DSK" := tt]> ∅) live_reset) = url live /\
  inNotify (set_amfExternalHandlers (<["DSK" := tt]> ∅) live_reset) = inNotify live.
Proof.
  assert (HD : Disconnect (@RegisterExternalHandler types "DSK" tt live) runtime_live
               = Some (set_amfExternalHandlers (<["DSK" := tt]> ∅) live_reset,
                       mkRuntime (chans runtime_live_reset)
                         [mkLog LvlDebug "disconnected from %s" [ArgS "rtmp://example/app"]]
                         (started runtime_live_reset))).
  { vm_compute. reflexivity. }
  split; [exact HD|].
  exact (handlers_survive_Reset live _ runtime_live _ "DSK" tt (or_intror HD)).
Defined.

Lemma Reset_touches_only_its_queues_witness :
  Reset live (mkRuntime [mkChan false [command7]; mkChan false []; mkChan false [media5]]
                [] [go_routeLoop])
  = Some (mkClient "rtmp://example/app" false (Some (mkWire true [x01; x02; x03] [x03]))
            0 (Some 3%nat) 2500000 128 ∅ 0 (Some 4%nat) None 2500000 128 ∅ ∅ 0 "" ∅,
          mkRuntime [mkChan true [command7]; mkChan true []; mkChan false [media5];
                     mkChan false []; mkChan false []] [] [go_routeLoop]) /\
  (forall b, outMessages live <> Some b -> inMessages live <> Some b ->
             (b < 3)%nat ->
             [mkChan true [command7]; mkChan true []; mkChan false [media5];
              mkChan false []; mkChan false []] !! b
             = [mkChan false [command7]; mkChan false []; mkChan false [media5]] !! b).
Proof.
  assert (HR : Reset live (mkRuntime [mkChan false [command7]; mkChan false [];
                                      mkChan false [media5]] [] [go_routeLoop])
    = Some (mkClient "rtmp://example/app" false (Some (mkWire true [x01; x02; x03] [x03]))
              0 (Some 3%nat) 2500000 128 ∅ 0 (Some 4%nat) None 2500000 128 ∅ ∅ 0 "" ∅,
            mkRuntime [mkChan true [command7]; mkChan true []; mkChan false [media5];
                       mkChan false []; mkChan false []] [] [go_routeLoop])).
  { vm_compute. reflexivity. }
  split; [exact HR|].
  exact (proj1 (proj2 (proj2 (Reset_touches_only_its_queues _ _ _ _ HR)))).
Defined.


Lemma Reads_Writes_accumulate_witness :
  conn live <> None /\
  in_uint32 (inBytes live) /\
  in_uint32 (outBytes live) /\
  (exists c' ns r',
      Reads [[x00; x00]; [x00; x00; x00]] live runtime_live = Some (c', ns, r') /\
      length ns = 2%nat /\
      inBytes c' = (inBytes live + sum_Z ns) mod 2 ^ 32 /\
      outBytes c' = outBytes live) /\
  (exists c' ns r',
      Writes [[x00; x00]; [x00; x00; x00]] live runtime_live = Some (c', ns, r') /\
      length ns = 2%nat /\
      outBytes c' = (outBytes live + sum_Z ns) mod 2 ^ 32 /\
      inBytes c' = inBytes live).
Proof.
  assert (Hconn : conn live <> None) by discriminate.
  assert (Hin : in_uint32 (inBytes live)).
  { unfold in_uint32. vm_compute. split; [discriminate|reflexivity]. }
  assert (Hout : in_uint32 (outBytes live)).
  { unfold in_uint32. vm_compute. split; [discriminate|reflexivity]. }
  split; [exact Hconn|]. split; [exact Hin|]. split; [exact Hout|].
  exact (Reads_Writes_accumulate [[x00; x00]; [x00; x00; x00]] live runtime_live
           Hconn Hin Hout).
Defined.

(** Two reads of 2 and 1 bytes take inBytes from 4294967295 to 2. *)
Example Reads_live :
  exists c' r', Reads [[x00; x00]; [x00; x00; x00]] live runtime_live = Some (c', [2; 1], r') /\
                inBytes live = 4294967295 /\ inBytes c' = 2.
Proof. eexists _, _. split; [vm_compute; reflexivity|]. split; reflexivity. Qed.



Lemma Connect_fails_before_handshake_witness :
  Connect (client_for "example") runtime1
  = Some (client_for "example", Some (errors_New "parse: missing protocol scheme"),
          mkRuntime (chans runtime1) [mkLog LvlDebug "connecting to %s" [ArgS "example"]] []) /\
  Connect (client_for "http://example") runtime1
  = Some (client_for "http://example", Some (ErrorS "Unsupported scheme: %s" "http"),
          mkRuntime (chans runtime1)
            [mkLog LvlDebug "connecting to %s" [ArgS "http://example"]] []) /\
  Connect (client_for "rtmp://") runtime1
  = Some (set_conn None (client_for "rtmp://"),
          Some (errors_New "dial tcp: missing address"),
          mkRuntime (chans runtime1) [mkLog LvlDebug "connecting to %s" [ArgS "rtmp://"]] []) /\
  Connect (client_for "rtmps://") runtime1
  = Some (client_for "rtmps://", Some (errors_New "dial tcp: missing address"),
          mkRuntime (chans runtime1) [mkLog LvlDebug "connecting to %s" [ArgS "rtmps://"]] []).
Proof.
  split; [|split; [|split]].
  - exact (proj1 (Connect_fails_before_handshake (client_for "example") runtime1)
             None (errors_New "parse: missing protocol scheme") eq_refl).
  - refine (proj1 (proj2 (Connect_fails_before_handshake (client_for "http://example") runtime1))
              (mkURL "http" "example") eq_refl _ _); discriminate.
  - exact (proj1 (proj2 (proj2 (Connect_fails_before_handshake (client_for "rtmp://") runtime1)))
             (mkURL "rtmp" "") None (errors_New "dial tcp: missing address")
             eq_refl eq_refl eq_refl).
  - refine (proj2 (proj2 (proj2 (Connect_fails_before_handshake (client_for "rtmps://") runtime1)))
              (mkURL "rtmps" "") (errors_New "dial tcp: missing address")
              eq_refl eq_refl (or_introl _)).
    exists None. reflexivity.
Defined.




Lemma Call_select_outcome_witness :
  map_index (responses live) 8 = None /\
  Call_select 8 [Tick; Tick; TimedOut; Tick] live
  = (live, Some (None, Some ErrResponseTimeout)) /\
  Call_select 8 [Tick; Tick; Tick] live = (live, None) /\
  map_index (responses live) 7 = Some reply7 /\
  Call_select 7 [TimedOut; Tick] live = (live, Some (None, Some ErrResponseTimeout)) /\
  Call_select 7 [Tick; TimedOut] live
  = (set_responses (delete 7 (responses live)) live, Some (Some reply7, None)).
Proof.
  assert (H8 : map_index (responses live) 8 = None) by (vm_compute; reflexivity).
  assert (H7 : map_index (responses live) 7 = Some reply7) by (vm_compute; reflexivity).
  split; [exact H8|].
  split.
  { apply (proj1 (proj1 (Call_select_outcome 8 [Tick; Tick; TimedOut; Tick] live) H8)).
    simpl. auto. }
  split.
  { apply (proj2 (proj1 (Call_select_outcome 8 [Tick; Tick; Tick] live) H8)).
    simpl. intros [Hb|[Hb|[Hb|[]]]]; discriminate. }
  split; [exact H7|].
  split.
  - exact (proj2 (Call_select_outcome 7 [TimedOut; Tick] live) reply7 H7).
  - exact (proj2 (Call_select_outcome 7 [Tick; TimedOut] live) reply7 H7).
Defined.


Lemma Reset_succeeds_iff_queues_open_witness :
  queues_open live runtime_live /\
  is_Some (Reset live runtime_live) /\
  is_Some (Disconnect live runtime_live) /\
  Reset client0 (mkRuntime [mkChan true []; mkChan false []] [] []) = None /\
  ~ queues_open client0 (mkRuntime [mkChan true []; mkChan false []] [] []).
Proof.
  split; [exact live_queues_open|].
  split; [exact (proj2 (proj1 (Reset_succeeds_iff_queues_open live runtime_live))
                   live_queues_open)|].
  split; [exact (proj2 (proj2 (Reset_succeeds_iff_queues_open live runtime_live))
                   live_queues_open)|].
  split; [reflexivity|].
  intros Hq.
  destruct (proj2 (proj1 (Reset_succeeds_iff_queues_open client0
              (mkRuntime [mkChan true []; mkChan false []] [] []))) Hq) as [x Hx].
  vm_compute in Hx. discriminate.
Defined.
